(** * node-jira: the JiraApi client of [lib/jira.js]

    A shallow embedding of the JiraApi object and its methods, and the
    properties of its login-then-request sequencing.

    JavaScript values are a small inductive type; the JiraApi object is a
    record; each method is a computation in a monad that threads the
    object and the replies the HTTP transport will deliver, records the
    requests issued and the invocations of the caller's callback, and
    tracks how a function body completes (falls off its end, executes
    [return], or throws).

    Node's built-ins that the file calls but does not define ([url.format],
    [String.prototype.toLowerCase], [JSON.parse], [JSON.stringify], and the
    conversion of text to a number in a comparison) are the fields of a
    class, so every theorem holds whatever they compute.
    [logger.log] writes to the console only and is left out. *)

From Stdlib Require Import ZArith List FinFun String Ascii Bool Lia.
From Stdlib Require Import DecimalPos DecimalZ DecimalString.
Import ListNotations.
Local Open Scope string_scope.
Local Open Scope Z_scope.

(** ** JavaScript values *)

#[warnings="-register-all"]
Inductive value : Type :=
| VUndefined
| VNull
| VBool (b : bool)
| VNum (n : Z)
| VStr (s : string)
| VArr (elems : list value)
| VObj (props : list (string * value)).

(** The argument of [url.format]. *)
Record UrlObject : Type := {
  url_protocol : string;
  url_hostname : string;
  url_port     : string;
  url_pathname : string
}.

(** The built-ins of the runtime. [JSON_parse] is [None] when [JSON.parse]
    throws a SyntaxError; [JSON_stringify v] is the text that
    [JSON.stringify(v)] contributes to a string concatenation;
    [Number_exceeds v i] is [i < v] for a string [v], or an array [v] that
    converts to a string: the number the text stands for is the runtime's. *)
Class Runtime : Type := {
  url_format     : UrlObject -> string;
  toLowerCase    : string -> string;
  JSON_parse     : value -> option value;
  JSON_stringify : value -> string;
  Number_exceeds : value -> Z -> bool
}.

(** Number-to-string conversion of an integral number, as [n + '...'] does. *)
Definition Z_to_string (n : Z) : string :=
  NilZero.string_of_int (Z.to_int n).

(** [cookies.join(';')] on an array of strings. *)
Definition join (sep : string) (l : list string) : string :=
  String.concat sep l.

(** Own-property lookup in an object literal or a parsed JSON object. *)
Fixpoint lookup {A : Type} (k : string) (l : list (string * A)) : option A :=
  match l with
  | [] => None
  | (k', v) :: l' => if String.eqb k k' then Some v else lookup k l'
  end.

(** [hay] has [needle] as a contiguous part. *)
Definition contains (needle hay : string) : Prop :=
  exists pre post, hay = pre ++ needle ++ post.

(** ** The data model *)

(** [new JiraApi(protocol, host, port, username, password, apiVersion)];
    the constructor sets [cookies] to the empty array. *)
Record JiraApi : Type := {
  protocol   : string;
  host       : string;
  port       : string;
  username   : string;
  password   : string;
  apiVersion : string;
  cookies    : list string
}.

Definition new_JiraApi (protocol host port username password apiVersion : string)
  : JiraApi :=
  {| protocol := protocol; host := host; port := port;
     username := username; password := password;
     apiVersion := apiVersion; cookies := [] |}.

Definition with_cookies (cs : list string) (j : JiraApi) : JiraApi :=
  {| protocol := protocol j; host := host j; port := port j;
     username := username j; password := password j;
     apiVersion := apiVersion j; cookies := cs |}.

(** The [options] object handed to [request]. A missing [json] key reads as
    [false]; [headers] and [body] are [None] when the key is absent. *)
Record options : Type := {
  uri     : string;
  method  : string;
  json    : bool;
  body    : option value;
  headers : option (list (string * string))
}.

(** What the handler of [request] reads of a response. Node delivers the
    [set-cookie] header as an array of strings when the header is present,
    and [undefined] (here [None]) when it is not. *)
Record Response : Type := {
  statusCode : Z;
  set_cookie : option (list string);
  resp_body  : value
}.

(** What the transport hands to the handler: [(error, undefined, undefined)]
    when the connection failed, [(null, response, response.body)] otherwise. *)
Inductive reply : Type :=
| TransportError (error : value)
| Reply (response : Response).

(** ** The monad of method bodies *)

Inductive event : Type :=
| EvRequest (o : options)          (* [request(options, ...)] was issued *)
| EvCallback (args : list value).  (* the caller's callback was invoked *)

Inductive completion (A : Type) : Type :=
| Normal (a : A)   (* ran to the end of the statement list *)
| Returned         (* executed [return;] *)
| Threw.           (* an exception escapes *)
Arguments Normal {A} a.
Arguments Returned {A}.
Arguments Threw {A}.

(** The JiraApi object ([this] / [self]) and the replies still to come, in
    the order in which the requests will receive them. *)
Record state : Type := {
  self    : JiraApi;
  pending : list reply
}.

Record result (A : Type) : Type := {
  trace   : list event;
  final   : state;
  outcome : completion A
}.
Arguments trace {A} r.
Arguments final {A} r.
Arguments outcome {A} r.
Arguments Build_result {A} trace final outcome.

Definition M (A : Type) : Type := state -> result A.

Definition ret {A : Type} (a : A) : M A :=
  fun s => Build_result [] s (Normal a).

Definition bind {A B : Type} (m : M A) (f : A -> M B) : M B :=
  fun s =>
    match m s with
    | Build_result t1 s1 (Normal a) =>
        match f a s1 with
        | Build_result t2 s2 o2 => Build_result (t1 ++ t2) s2 o2
        end
    | Build_result t1 s1 Returned => Build_result t1 s1 Returned
    | Build_result t1 s1 Threw => Build_result t1 s1 Threw
    end.

Declare Scope js_scope.
Delimit Scope js_scope with js.
Notation "x <- m ;; k" := (bind m (fun x => k))
  (at level 61, m at next level, right associativity) : js_scope.
Notation "m ;; k" := (bind m (fun _ => k))
  (at level 61, right associativity) : js_scope.
Local Open Scope js_scope.

(** [return;] *)
Definition Return {A : Type} : M A :=
  fun s => Build_result [] s Returned.

(** A TypeError (or SyntaxError) is thrown. *)
Definition throw {A : Type} : M A :=
  fun s => Build_result [] s Threw.

(** [if (c) { m }] *)
Definition If_ (c : bool) (m : M unit) : M unit :=
  if c then m else ret tt.
Notation "'If' c 'Then' m" := (If_ c m) (at level 60, c at level 9) : js_scope.

Definition emit (e : event) : M unit :=
  fun s => Build_result [e] s (Normal tt).

(** [this] ([self] inside the closures). *)
Definition this : M JiraApi :=
  fun s => Build_result [] s (Normal (self s)).

(** [self.cookies = cs] *)
Definition set_cookies (cs : list string) : M unit :=
  fun s => Build_result []
             {| self := with_cookies cs (self s); pending := pending s |}
             (Normal tt).

(** Leaving a [function]: a [return] inside its body ends the call only. *)
Definition returns (r : result unit) : result unit :=
  match r with
  | Build_result t s Returned => Build_result t s (Normal tt)
  | _ => r
  end.

(** The body of a [function], called. *)
Definition function (body : M unit) : M unit :=
  fun s => returns (body s).

(** The caller's callback: its invocation is recorded, and it returns. *)
Definition user_callback (args : list value) : M unit :=
  emit (EvCallback args).

(** [response.statusCode]: a TypeError when [response] is undefined. *)
Definition get_statusCode (response : option Response) : M Z :=
  match response with
  | Some r => ret (statusCode r)
  | None => throw
  end.

(** [response.headers['set-cookie']] *)
Definition get_set_cookie (response : option Response) : M (option (list string)) :=
  match response with
  | Some r => ret (set_cookie r)
  | None => throw
  end.

(** [response.body] *)
Definition get_body (response : option Response) : M value :=
  match response with
  | Some r => ret (resp_body r)
  | None => throw
  end.

(** [v.k] for the keys read in this file ([views], [sprints], [name],
    [transitions], [issuesUnresolvedCount]): a TypeError on [undefined] and
    [null], the own property of an object, [undefined] on anything else. *)
Definition get_prop (v : value) (k : string) : M value :=
  match v with
  | VUndefined | VNull => throw
  | VObj props =>
      match lookup k props with
      | Some x => ret x
      | None => ret VUndefined
      end
  | _ => ret VUndefined
  end.

(** [v !== null] is [negb (is_null v)]. *)
Definition is_null (v : value) : bool :=
  match v with
  | VNull => true
  | _ => false
  end.

(** [if (v)]: [undefined], [null], [false], [0] and the empty string are
    falsy. *)
Definition truthy (v : value) : bool :=
  match v with
  | VUndefined | VNull => false
  | VBool b => b
  | VNum n => negb (n =? 0)
  | VStr s => negb (String.eqb s "")
  | VArr _ | VObj _ => true
  end.

(** [v == null] *)
Definition loosely_null (v : value) : bool :=
  match v with
  | VNull | VUndefined => true
  | _ => false
  end.

(** Whether an object has [k] as a key of its own. *)
Definition has_key {A : Type} (k : string) (l : list (string * A)) : bool :=
  match lookup k l with
  | Some _ => true
  | None => false
  end.

(** Whether the conversion of [v] to a primitive throws a TypeError. A
    parsed object converts through the inherited [toString], unless a key
    [toString] of its own, which holds no function, hides it; an array
    converts by joining the texts of its elements, [undefined] and [null]
    giving the empty text. *)
Fixpoint conversion_throws (v : value) : bool :=
  match v with
  | VObj props => has_key "toString" props
  | VArr elems => existsb conversion_throws elems
  | _ => false
  end.

(** The loop test [i < len] for [len] the value of a [length] property;
    [None] is a TypeError. [undefined] and a converted object are not
    numbers, [null] is 0, [false] 0 and [true] 1. *)
Definition index_below `{Runtime} (len : value) (i : Z) : option bool :=
  match len with
  | VUndefined => Some false
  | VNull => Some (i <? 0)
  | VBool b => Some (i <? (if b then 1 else 0))
  | VNum n => Some (i <? n)
  | VStr _ => Some (Number_exceeds len i)
  | VArr _ => if conversion_throws len then None else Some (Number_exceeds len i)
  | VObj _ => if conversion_throws len then None else Some false
  end.

(** The elements [v[i]], [v[i + 1]], ... of an object with keys ["0"],
    ["1"], ..., as long as the loop test holds, up to and including the
    first index that is not a key: the element there is [undefined]. The
    keys found use up the fuel, one each. *)
Fixpoint array_like_elements (fuel i : nat) (below : Z -> bool)
         (props : list (string * value)) : list value :=
  if below (Z.of_nat i) then
    match lookup (Z_to_string (Z.of_nat i)) props with
    | None => [VUndefined]
    | Some elem =>
        elem :: match fuel with
                | O => []
                | S fuel' => array_like_elements fuel' (S i) below props
                end
    end
  else [].

(** The elements [v[0]], [v[1]], ... that a [for] loop with the test
    [i < v.length] visits: those of an array; the one-character strings of
    a string; none when [v.length] is [undefined]; a TypeError on
    [undefined] and [null]. For an object, the elements under its keys
    ["0"], ["1"], ... below its [length], as far as the first index that is
    not a key, where the body of the loop of this file throws on reading
    [name] of [undefined]; an object has fewer keys ["0"], ["1"], ... than
    entries, so as many steps as it has entries reach that index. *)
Definition indexed_elements `{Runtime} (v : value) : M (list value) :=
  match v with
  | VArr elems => ret elems
  | VUndefined | VNull => throw
  | VStr s => ret (map (fun c => VStr (String c EmptyString)) (list_ascii_of_string s))
  | VNum _ | VBool _ => ret []
  | VObj props =>
      let len := match lookup "length" props with
                 | Some len => len
                 | None => VUndefined
                 end in
      match index_below len 0 with
      | None => throw
      | Some _ =>
          ret (array_like_elements (List.length props) 0
                 (fun i => match index_below len i with
                           | Some true => true
                           | _ => false
                           end)
                 props)
      end
  end.

(** [v.pop()]: the last element of an array ([undefined] when it is empty);
    a TypeError on anything else, which has no [pop] method. *)
Definition call_pop (v : value) : M value :=
  match v with
  | VArr elems => ret (last elems VUndefined)
  | _ => throw
  end.

(** [JSON.parse(v)] *)
Definition parse `{Runtime} (v : value) : M value :=
  match JSON_parse v with
  | Some x => ret x
  | None => throw
  end.

Definition handler : Type := value -> option Response -> value -> M unit.

(** The arrival of the next reply: the handler is called with
    [(error, response, body)]. With no reply to come the handler is never
    called. *)
Definition deliver (h : handler) : M unit :=
  fun s =>
    match pending s with
    | [] => Build_result [] s (Normal tt)
    | r :: rest =>
        let s' := {| self := self s; pending := rest |} in
        match r with
        | TransportError e => function (h e None VUndefined) s'
        | Reply resp => function (h VNull (Some resp) (resp_body resp)) s'
        end
    end.

(** [request(options, handler)]: the request goes out, and its reply is
    handled when it arrives. *)
Definition request (o : options) (h : handler) : M unit :=
  emit (EvRequest o) ;;
  deliver h.

Definition cookie_header (j : JiraApi) : option (list (string * string)) :=
  Some [("Cookie", join ";" (cookies j))].

Section Methods.
Context `{Runtime}.

(** [v.toLowerCase()]: a TypeError unless [v] is a string. *)
Definition call_toLowerCase (v : value) : M string :=
  match v with
  | VStr s => ret (toLowerCase s)
  | _ => throw
  end.

Definition format (j : JiraApi) (pathname : string) : string :=
  url_format {| url_protocol := protocol j; url_hostname := host j;
                url_port := port j; url_pathname := pathname |}.

(** *** login *)

Definition login_options (j : JiraApi) : options :=
  {| uri := format j "rest/auth/1/session";
     method := "POST";
     json := true;
     body := Some (VObj [("username", VStr (username j));
                         ("password", VStr (password j))]);
     headers := None |}.

Definition login_handler (callback : list value -> M unit) : handler :=
  fun error response body =>
    status <- get_statusCode response ;;
    If (status =? 401) Then
      (callback [VStr "Failed to log in to JIRA due to authentication error."] ;;
       Return) ;;
    If (negb (status =? 200)) Then
      (callback [VStr (Z_to_string status ++ ": Unable to connect to JIRA during login.")] ;;
       Return) ;;
    set_cookies [] ;;
    hs <- get_set_cookie response ;;
    (match hs with
     | Some cs => set_cookies cs
     | None => ret tt
     end) ;;
    callback [VNull].

Definition login (callback : list value -> M unit) : M unit :=
  j <- this ;;
  request (login_options j) (login_handler callback).

(** *** findIssue *)

Definition findIssue_handler (callback : list value -> M unit) : handler :=
  fun error response body =>
    status <- get_statusCode response ;;
    If (status =? 404) Then
      (callback [VStr "Invalid issue number."] ;; Return) ;;
    If (negb (status =? 200)) Then
      (callback [VStr (Z_to_string status ++ ": Unable to connect to JIRA during findIssueStatus.")] ;;
       Return) ;;
    parsed <- parse body ;;
    callback [VNull; parsed].

(** The closure [findIssue] passes to [this.login]. *)
Definition findIssue_continue (issueNumber : string)
           (callback : list value -> M unit) : M unit :=
  j <- this ;;
  request {| uri := format j ("rest/api/" ++ apiVersion j ++ "/issue/" ++ issueNumber);
             method := "GET";
             json := false;
             body := None;
             headers := cookie_header j |}
          (findIssue_handler callback).

Definition findIssue (issueNumber : string)
           (callback : list value -> M unit) : M unit :=
  login (fun _ => function (findIssue_continue issueNumber callback)).

(** *** getUnresolvedIssueCount *)

Definition getUnresolvedIssueCount_handler (callback : list value -> M unit)
  : handler :=
  fun error response body =>
    status <- get_statusCode response ;;
    If (status =? 404) Then
      (callback [VStr "Invalid version."] ;; Return) ;;
    If (negb (status =? 200)) Then
      (callback [VStr (Z_to_string status ++ ": Unable to connect to JIRA during findIssueStatus.")] ;;
       Return) ;;
    body <- parse body ;;
    count <- get_prop body "issuesUnresolvedCount" ;;
    callback [VNull; count].

Definition getUnresolvedIssueCount_continue (version : string)
           (callback : list value -> M unit) : M unit :=
  j <- this ;;
  request {| uri := format j ("rest/api/" ++ apiVersion j ++ "/version/" ++ version
                              ++ "/unresolvedIssueCount");
             method := "GET";
             json := false;
             body := None;
             headers := cookie_header j |}
          (getUnresolvedIssueCount_handler callback).

Definition getUnresolvedIssueCount (version : string)
           (callback : list value -> M unit) : M unit :=
  login (fun _ => function (getUnresolvedIssueCount_continue version callback)).

(** *** getProject *)

Definition getProject_handler (callback : list value -> M unit) : handler :=
  fun error response body =>
    status <- get_statusCode response ;;
    If (status =? 404) Then
      (callback [VStr "Invalid project."] ;; Return) ;;
    If (negb (status =? 200)) Then
      (callback [VStr (Z_to_string status ++ ": Unable to connect to JIRA during getProject.")] ;;
       Return) ;;
    body <- parse body ;;
    callback [VNull; body].

Definition getProject_continue (project : string)
           (callback : list value -> M unit) : M unit :=
  j <- this ;;
  request {| uri := format j ("rest/api/" ++ apiVersion j ++ "/project/" ++ project);
             method := "GET";
             json := false;
             body := None;
             headers := cookie_header j |}
          (getProject_handler callback).

Definition getProject (project : string)
           (callback : list value -> M unit) : M unit :=
  login (fun _ => function (getProject_continue project callback)).

(** *** findRapidView *)

(** The iterations of [for (var i = 0; i < rapidViews.length; i++)] from the
    element at hand on. *)
Fixpoint findRapidView_loop (rapidViews : list value) (projectName : string)
         (callback : list value -> M unit) : M unit :=
  match rapidViews with
  | [] => ret tt
  | view :: rest =>
      name <- get_prop view "name" ;;
      lowered <- call_toLowerCase name ;;
      If (String.eqb lowered (toLowerCase projectName)) Then
        (callback [VNull; view] ;; Return) ;;
      findRapidView_loop rest projectName callback
  end.

Definition findRapidView_handler (projectName : string)
           (callback : list value -> M unit) : handler :=
  fun error response body =>
    status <- get_statusCode response ;;
    If (status =? 404) Then
      (callback [VStr "Invalid URL"] ;; Return) ;;
    If (negb (status =? 200)) Then
      (callback [VStr (Z_to_string status ++ ": Unable to connect to JIRA during rapidView search.")] ;;
       Return) ;;
    response_body <- get_body response ;;
    If (negb (is_null response_body)) Then
      (rapidViews <- get_prop response_body "views" ;;
       elems <- indexed_elements rapidViews ;;
       findRapidView_loop elems projectName callback).

Definition findRapidView_continue (projectName : string)
           (callback : list value -> M unit) : M unit :=
  j <- this ;;
  request {| uri := format j ("rest/greenhopper/" ++ apiVersion j ++ "/rapidviews/list");
             method := "GET";
             json := true;
             body := None;
             headers := cookie_header j |}
          (findRapidView_handler projectName callback).

Definition findRapidView (projectName : string)
           (callback : list value -> M unit) : M unit :=
  login (fun _ => function (findRapidView_continue projectName callback)).

(** *** getLastSprintForRapidView *)

Definition getLastSprintForRapidView_handler (callback : list value -> M unit)
  : handler :=
  fun error response body =>
    status <- get_statusCode response ;;
    If (status =? 404) Then
      (callback [VStr "Invalid URL"] ;; Return) ;;
    If (negb (status =? 200)) Then
      (callback [VStr (Z_to_string status ++ ": Unable to connect to JIRA during sprints search.")] ;;
       Return) ;;
    response_body <- get_body response ;;
    If (negb (is_null response_body)) Then
      (sprints <- get_prop response_body "sprints" ;;
       popped <- call_pop sprints ;;
       callback [VNull; popped] ;;
       Return).

Definition getLastSprintForRapidView_continue (rapidViewId : string)
           (callback : list value -> M unit) : M unit :=
  j <- this ;;
  request {| uri := format j ("rest/greenhopper/" ++ apiVersion j ++ "/sprints/" ++ rapidViewId);
             method := "GET";
             json := true;
             body := None;
             headers := cookie_header j |}
          (getLastSprintForRapidView_handler callback).

Definition getLastSprintForRapidView (rapidViewId : string)
           (callback : list value -> M unit) : M unit :=
  login (fun _ => function (getLastSprintForRapidView_continue rapidViewId callback)).

(** *** addIssueToSprint *)

Definition addIssueToSprint_handler (callback : list value -> M unit) : handler :=
  fun error response body =>
    status <- get_statusCode response ;;
    If (status =? 404) Then
      (callback [VStr "Invalid URL"] ;; Return) ;;
    If (negb (status =? 204)) Then
      (callback [VStr (Z_to_string status ++ ": Unable to connect to JIRA to add to sprint.")] ;;
       Return).

Definition addIssueToSprint_continue (issueId : value) (sprintId : string)
           (callback : list value -> M unit) : M unit :=
  j <- this ;;
  request {| uri := format j ("rest/greenhopper/" ++ apiVersion j ++ "/sprint/" ++ sprintId
                              ++ "/issues/add");
             method := "PUT";
             json := true;
             body := Some (VObj [("issueKeys", VArr [issueId])]);
             headers := cookie_header j |}
          (addIssueToSprint_handler callback).

Definition addIssueToSprint (issueId : value) (sprintId : string)
           (callback : list value -> M unit) : M unit :=
  login (fun _ => function (addIssueToSprint_continue issueId sprintId callback)).

(** *** issueLink *)

Definition issueLink_handler (callback : list value -> M unit) : handler :=
  fun error response body =>
    status <- get_statusCode response ;;
    If (status =? 404) Then
      (callback [VStr "Invalid project."] ;; Return) ;;
    If (negb (status =? 200)) Then
      (callback [VStr (Z_to_string status ++ ": Unable to connect to JIRA during issueLink.")] ;;
       Return) ;;
    callback [VNull].

Definition issueLink_continue (link : value)
           (callback : list value -> M unit) : M unit :=
  j <- this ;;
  request {| uri := format j ("rest/api/" ++ apiVersion j ++ "/issueLink");
             method := "POST";
             json := true;
             body := Some link;
             headers := cookie_header j |}
          (issueLink_handler callback).

Definition issueLink (link : value)
           (callback : list value -> M unit) : M unit :=
  login (fun _ => function (issueLink_continue link callback)).

(** *** getVersions *)

Definition getVersions_handler (callback : list value -> M unit) : handler :=
  fun error response body =>
    status <- get_statusCode response ;;
    If (status =? 404) Then
      (callback [VStr "Invalid project."] ;; Return) ;;
    If (negb (status =? 200)) Then
      (callback [VStr (Z_to_string status ++ ": Unable to connect to JIRA during getVersions.")] ;;
       Return) ;;
    body <- parse body ;;
    callback [VNull; body].

Definition getVersions_continue (project : string)
           (callback : list value -> M unit) : M unit :=
  j <- this ;;
  request {| uri := format j ("rest/api/" ++ apiVersion j ++ "/project/" ++ project
                              ++ "/versions");
             method := "GET";
             json := false;
             body := None;
             headers := cookie_header j |}
          (getVersions_handler callback).

Definition getVersions (project : string)
           (callback : list value -> M unit) : M unit :=
  login (fun _ => function (getVersions_continue project callback)).

(** *** createVersion *)

Definition createVersion_handler (callback : list value -> M unit) : handler :=
  fun error response body =>
    status <- get_statusCode response ;;
    If (status =? 404) Then
      (callback [VStr "Version does not exist or the currently authenticated user does not have permission to view it"] ;;
       Return) ;;
    If (status =? 403) Then
      (callback [VStr "The currently authenticated user does not have permission to edit the version"] ;;
       Return) ;;
    If (negb (status =? 201)) Then
      (callback [VStr (Z_to_string status ++ ": Unable to connect to JIRA during createVersion.")] ;;
       Return) ;;
    callback [VNull; body].

Definition createVersion_continue (version : value)
           (callback : list value -> M unit) : M unit :=
  j <- this ;;
  request {| uri := format j ("rest/api/" ++ apiVersion j ++ "/version");
             method := "POST";
             json := true;
             body := Some version;
             headers := cookie_header j |}
          (createVersion_handler callback).

Definition createVersion (version : value)
           (callback : list value -> M unit) : M unit :=
  login (fun _ => function (createVersion_continue version callback)).

(** *** searchJira *)

Definition default_fields : value :=
  VArr [VStr "summary"; VStr "status"; VStr "assignee"; VStr "description"].

Definition searchJira_handler (callback : list value -> M unit) : handler :=
  fun error response body =>
    status <- get_statusCode response ;;
    If (status =? 400) Then
      (callback [VStr "Problem with the JQL query"] ;; Return) ;;
    If (negb (status =? 200)) Then
      (callback [VStr (Z_to_string status ++ ": Unable to connect to JIRA during search.")] ;;
       Return) ;;
    callback [VNull; body].

Definition searchJira_continue (searchString : string) (fields : value)
           (callback : list value -> M unit) : M unit :=
  j <- this ;;
  request {| uri := format j ("rest/api/" ++ apiVersion j ++ "/search");
             method := "POST";
             json := true;
             body := Some (VObj [("jql", VStr searchString);
                                 ("startAt", VNum 0);
                                 ("fields", fields)]);
             headers := cookie_header j |}
          (searchJira_handler callback).

Definition searchJira (searchString : string) (fields : value)
           (callback : list value -> M unit) : M unit :=
  let fields := if loosely_null fields then default_fields else fields in
  login (fun _ => function (searchJira_continue searchString fields callback)).

(** *** getUsersIssues *)

Definition openText : string :=
  " AND status in (Open, " ++ String "034" "In Progress" ++ String "034" ", Reopened)".

Definition getUsersIssues (username : string) (open : value)
           (callback : list value -> M unit) : M unit :=
  let jql := "assignee = " ++ username in
  let jql := if truthy open then jql ++ openText else jql in
  searchJira jql VNull callback.

(** *** addNewIssue *)

Definition addNewIssue_handler (callback : list value -> M unit) : handler :=
  fun error response body =>
    status <- get_statusCode response ;;
    If (status =? 400) Then
      (callback [body] ;; Return) ;;
    If (negb (status =? 200) && negb (status =? 201)) Then
      (callback [VStr (Z_to_string status ++ ": Unable to connect to JIRA during search.")] ;;
       Return) ;;
    callback [VNull; body].

Definition addNewIssue_continue (issue : value)
           (callback : list value -> M unit) : M unit :=
  j <- this ;;
  request {| uri := format j ("rest/api/" ++ apiVersion j ++ "/issue");
             method := "POST";
             json := true;
             body := Some issue;
             headers := cookie_header j |}
          (addNewIssue_handler callback).

Definition addNewIssue (issue : value)
           (callback : list value -> M unit) : M unit :=
  login (fun _ => function (addNewIssue_continue issue callback)).

(** *** deleteIssue *)

Definition deleteIssue_handler (callback : list value -> M unit) : handler :=
  fun error response body =>
    status <- get_statusCode response ;;
    If (status =? 204) Then
      (callback [VNull; VStr "Success"] ;; Return) ;;
    callback [VStr (Z_to_string status ++ ": Error while deleting")].

Definition deleteIssue_continue (issueNum : string)
           (callback : list value -> M unit) : M unit :=
  j <- this ;;
  request {| uri := format j ("rest/api/" ++ apiVersion j ++ "/issue/" ++ issueNum);
             method := "DELETE";
             json := true;
             body := None;
             headers := cookie_header j |}
          (deleteIssue_handler callback).

Definition deleteIssue (issueNum : string)
           (callback : list value -> M unit) : M unit :=
  login (fun _ => function (deleteIssue_continue issueNum callback)).

(** *** updateIssue *)

Definition updateIssue_handler (callback : list value -> M unit) : handler :=
  fun error response body =>
    status <- get_statusCode response ;;
    If (status =? 200) Then
      (callback [VNull; VStr "Success"] ;; Return) ;;
    callback [VStr (Z_to_string status ++ ": Error while updating")].

Definition updateIssue_continue (issueNum : string) (issueUpdate : value)
           (callback : list value -> M unit) : M unit :=
  j <- this ;;
  request {| uri := format j ("rest/api/" ++ apiVersion j ++ "/issue/" ++ issueNum);
             method := "PUT";
             json := true;
             body := Some issueUpdate;
             headers := cookie_header j |}
          (updateIssue_handler callback).

Definition updateIssue (issueNum : string) (issueUpdate : value)
           (callback : list value -> M unit) : M unit :=
  login (fun _ => function (updateIssue_continue issueNum issueUpdate callback)).

(** *** listTransitions *)

Definition listTransitions_handler (callback : list value -> M unit) : handler :=
  fun error response body =>
    status <- get_statusCode response ;;
    If (status =? 200) Then
      (transitions <- get_prop body "transitions" ;;
       callback [VNull; transitions] ;;
       Return) ;;
    If (status =? 404) Then
      (callback [VStr "Issue not found"]) ;;
    callback [VStr (Z_to_string status ++ ": Error while updating")].

Definition listTransitions_continue (issueId : string)
           (callback : list value -> M unit) : M unit :=
  j <- this ;;
  request {| uri := format j ("rest/api/" ++ apiVersion j ++ "/issue/" ++ issueId
                              ++ "/transitions");
             method := "GET";
             json := true;
             body := None;
             headers := cookie_header j |}
          (listTransitions_handler callback).

Definition listTransitions (issueId : string)
           (callback : list value -> M unit) : M unit :=
  login (fun _ => function (listTransitions_continue issueId callback)).

(** *** transitionIssue *)

Definition transitionIssue_handler (callback : list value -> M unit) : handler :=
  fun error response body =>
    status <- get_statusCode response ;;
    If (status =? 204) Then
      (callback [VNull; VStr "Success"] ;; Return) ;;
    callback [VStr (Z_to_string status ++ ": Error while updating")].

Definition transitionIssue_continue (issueNum : string) (issueTransition : value)
           (callback : list value -> M unit) : M unit :=
  j <- this ;;
  request {| uri := format j ("rest/api/" ++ apiVersion j ++ "/issue/" ++ issueNum
                              ++ "/transitions");
             method := "POST";
             json := true;
             body := Some issueTransition;
             headers := cookie_header j |}
          (transitionIssue_handler callback).

Definition transitionIssue (issueNum : string) (issueTransition : value)
           (callback : list value -> M unit) : M unit :=
  login (fun _ => function (transitionIssue_continue issueNum issueTransition callback)).

(** *** listProjects *)

Definition listProjects_handler (callback : list value -> M unit) : handler :=
  fun error response body =>
    status <- get_statusCode response ;;
    If (status =? 200) Then
      (callback [VNull; body] ;; Return) ;;
    If (status =? 500) Then
      (callback [VStr (Z_to_string status ++ ": Error while retrieving list.")]) ;;
    callback [VStr (Z_to_string status ++ ": Error while updating")].

Definition listProjects_continue (callback : list value -> M unit) : M unit :=
  j <- this ;;
  request {| uri := format j ("rest/api/" ++ apiVersion j ++ "/project");
             method := "GET";
             json := true;
             body := None;
             headers := cookie_header j |}
          (listProjects_handler callback).

Definition listProjects (callback : list value -> M unit) : M unit :=
  login (fun _ => function (listProjects_continue callback)).

(** *** addWorklog *)

Definition addWorklog_handler (callback : list value -> M unit) : handler :=
  fun error response body =>
    status <- get_statusCode response ;;
    If (status =? 201) Then
      (callback [VNull; VStr "Success"] ;; Return) ;;
    If (status =? 400) Then
      (callback [VStr ("Invalid Fields: " ++ JSON_stringify body)] ;; Return) ;;
    If (status =? 403) Then
      (callback [VStr "Insufficient Permissions"] ;; Return) ;;
    callback [VStr (Z_to_string status ++ ": Error while updating")].

Definition addWorklog_continue (issueId : string) (worklog : value)
           (callback : list value -> M unit) : M unit :=
  j <- this ;;
  request {| uri := format j ("rest/api/" ++ apiVersion j ++ "/issue/" ++ issueId
                              ++ "/worklog");
             method := "POST";
             json := true;
             body := Some worklog;
             headers := cookie_header j |}
          (addWorklog_handler callback).

Definition addWorklog (issueId : string) (worklog : value)
           (callback : list value -> M unit) : M unit :=
  login (fun _ => function (addWorklog_continue issueId worklog callback)).

(** *** listIssueTypes *)

Definition listIssueTypes_handler (callback : list value -> M unit) : handler :=
  fun error response body =>
    status <- get_statusCode response ;;
    If (status =? 200) Then
      (callback [VNull; body] ;; Return) ;;
    callback [VStr (Z_to_string status ++ ": Error while retreiving issue types")].

Definition listIssueTypes_continue (callback : list value -> M unit) : M unit :=
  j <- this ;;
  request {| uri := format j ("rest/api/" ++ apiVersion j ++ "/issuetype");
             method := "GET";
             json := true;
             body := None;
             headers := cookie_header j |}
          (listIssueTypes_handler callback).

Definition listIssueTypes (callback : list value -> M unit) : M unit :=
  login (fun _ => function (listIssueTypes_continue callback)).

(** ** The operations as a whole *)

(** A call of one of the methods that log in first, with its arguments. *)
Inductive operation : Type :=
| FindIssue (issueNumber : string)
| GetUnresolvedIssueCount (version : string)
| GetProject (project : string)
| FindRapidView (projectName : string)
| GetLastSprintForRapidView (rapidViewId : string)
| AddIssueToSprint (issueId : value) (sprintId : string)
| IssueLink (link : value)
| GetVersions (project : string)
| CreateVersion (version : value)
| SearchJira (searchString : string) (fields : value)
| GetUsersIssues (username : string) (open : value)
| AddNewIssue (issue : value)
| DeleteIssue (issueNum : string)
| UpdateIssue (issueNum : string) (issueUpdate : value)
| ListTransitions (issueId : string)
| TransitionIssue (issueNum : string) (issueTransition : value)
| ListProjects
| AddWorklog (issueId : string) (worklog : value)
| ListIssueTypes.

Definition invoke (op : operation) (callback : list value -> M unit) : M unit :=
  match op with
  | FindIssue issueNumber => findIssue issueNumber callback
  | GetUnresolvedIssueCount version => getUnresolvedIssueCount version callback
  | GetProject project => getProject project callback
  | FindRapidView projectName => findRapidView projectName callback
  | GetLastSprintForRapidView rapidViewId => getLastSprintForRapidView rapidViewId callback
  | AddIssueToSprint issueId sprintId => addIssueToSprint issueId sprintId callback
  | IssueLink link => issueLink link callback
  | GetVersions project => getVersions project callback
  | CreateVersion version => createVersion version callback
  | SearchJira searchString fields => searchJira searchString fields callback
  | GetUsersIssues username open => getUsersIssues username open callback
  | AddNewIssue issue => addNewIssue issue callback
  | DeleteIssue issueNum => deleteIssue issueNum callback
  | UpdateIssue issueNum issueUpdate => updateIssue issueNum issueUpdate callback
  | ListTransitions issueId => listTransitions issueId callback
  | TransitionIssue issueNum issueTransition => transitionIssue issueNum issueTransition callback
  | ListProjects => listProjects callback
  | AddWorklog issueId worklog => addWorklog issueId worklog callback
  | ListIssueTypes => listIssueTypes callback
  end.

End Methods.

Create HintDb closures.
#[global] Hint Unfold findIssue_continue getUnresolvedIssueCount_continue
  getProject_continue findRapidView_continue getLastSprintForRapidView_continue
  addIssueToSprint_continue issueLink_continue getVersions_continue
  createVersion_continue searchJira_continue addNewIssue_continue
  deleteIssue_continue updateIssue_continue listTransitions_continue
  transitionIssue_continue listProjects_continue addWorklog_continue
  listIssueTypes_continue : closures.

(** ** Observations on a run *)

(** The requests issued during a run, in order. *)
Fixpoint requests (t : list event) : list options :=
  match t with
  | [] => []
  | EvRequest o :: t' => o :: requests t'
  | EvCallback _ :: t' => requests t'
  end.

(** The argument lists the caller's callback received, in order. *)
Fixpoint callbacks (t : list event) : list (list value) :=
  match t with
  | [] => []
  | EvRequest _ :: t' => callbacks t'
  | EvCallback args :: t' => args :: callbacks t'
  end.

(** A run with one more event in front. *)
Definition prepend {A : Type} (e : event) (r : result A) : result A :=
  match r with
  | Build_result t s o => Build_result (e :: t) s o
  end.

(** The name of a view of the rapid-views list, when it has one. *)
Definition view_name (view : value) : option string :=
  match view with
  | VObj props =>
      match lookup "name" props with
      | Some (VStr name) => Some name
      | _ => None
      end
  | _ => None
  end.

(** The double quote, by its character code. *)
Definition dquote : string := String (ascii_of_nat 34) EmptyString.

Section Summaries.
Context `{Runtime}.

(** What [login] hands to its callback for a response. *)
Definition login_result (resp : Response) : list value :=
  if statusCode resp =? 401 then
    [VStr "Failed to log in to JIRA due to authentication error."]
  else if statusCode resp =? 200 then [VNull]
  else [VStr (Z_to_string (statusCode resp) ++ ": Unable to connect to JIRA during login.")].

(** The JiraApi object after [login] has handled a response. *)
Definition after_login (j : JiraApi) (resp : Response) : JiraApi :=
  if statusCode resp =? 200 then
    with_cookies (match set_cookie resp with Some cs => cs | None => [] end) j
  else j.

(** The closure an operation passes to [this.login]. *)
Definition continuation (op : operation) (callback : list value -> M unit) : M unit :=
  match op with
  | FindIssue issueNumber => findIssue_continue issueNumber callback
  | GetUnresolvedIssueCount version => getUnresolvedIssueCount_continue version callback
  | GetProject project => getProject_continue project callback
  | FindRapidView projectName => findRapidView_continue projectName callback
  | GetLastSprintForRapidView rapidViewId =>
      getLastSprintForRapidView_continue rapidViewId callback
  | AddIssueToSprint issueId sprintId => addIssueToSprint_continue issueId sprintId callback
  | IssueLink link => issueLink_continue link callback
  | GetVersions project => getVersions_continue project callback
  | CreateVersion version => createVersion_continue version callback
  | SearchJira searchString fields =>
      searchJira_continue searchString
        (if loosely_null fields then default_fields else fields) callback
  | GetUsersIssues username open =>
      searchJira_continue
        (if truthy open then ("assignee = " ++ username) ++ openText
         else "assignee = " ++ username)
        default_fields callback
  | AddNewIssue issue => addNewIssue_continue issue callback
  | DeleteIssue issueNum => deleteIssue_continue issueNum callback
  | UpdateIssue issueNum issueUpdate => updateIssue_continue issueNum issueUpdate callback
  | ListTransitions issueId => listTransitions_continue issueId callback
  | TransitionIssue issueNum issueTransition =>
      transitionIssue_continue issueNum issueTransition callback
  | ListProjects => listProjects_continue callback
  | AddWorklog issueId worklog => addWorklog_continue issueId worklog callback
  | ListIssueTypes => listIssueTypes_continue callback
  end.

End Summaries.

(** ** A runtime to evaluate with *)

Module Sample.

Definition lower_ascii (c : ascii) : ascii :=
  let n := nat_of_ascii c in
  if (Nat.leb 65 n && Nat.leb n 90)%bool then ascii_of_nat (n + 32) else c.

Fixpoint lower (s : string) : string :=
  match s with
  | EmptyString => EmptyString
  | String c s' => String (lower_ascii c) (lower s')
  end.

(** Stand-ins for Node's built-ins on plain ASCII input: the URL is put
    together from its parts, letters A-Z are lowered, the parser knows the
    literals [null] and [true] only, and the number of a text is read when
    the text is a decimal integer, that of an array when it holds one
    number. *)
Definition runtime : Runtime :=
  {| url_format := fun u =>
       url_protocol u ++ "://" ++ url_hostname u ++ ":" ++ url_port u
       ++ "/" ++ url_pathname u;
     toLowerCase := lower;
     JSON_parse := fun v =>
       match v with
       | VStr "null" => Some VNull
       | VStr "true" => Some (VBool true)
       | _ => None
       end;
     JSON_stringify := fun _ => "{}";
     Number_exceeds := fun v i =>
       match v with
       | VStr s =>
           match NilZero.int_of_string s with
           | Some d => i <? Z.of_int d
           | None => false
           end
       | VArr [VNum n] => i <? n
       | _ => false
       end |}.

Definition jira : JiraApi :=
  new_JiraApi "https" "jira.example.com" "443" "fred" "secret" "2".

Definition respond (status : Z) (cs : option (list string)) (b : value) : Response :=
  {| statusCode := status; set_cookie := cs; resp_body := b |}.

Definition session : list string := ["JSESSIONID=6E3487971234567896704A9EB4AE501F"].

Definition start (replies : list reply) : state :=
  {| self := jira; pending := replies |}.

(** A rapid-views list: the second view is the first one named like
    the project [Alpha]. *)
Definition beta : value := VObj [("id", VNum 1); ("name", VStr "Beta")].
Definition alpha : value := VObj [("id", VNum 2); ("name", VStr "alpha")].
Definition ALPHA : value := VObj [("id", VNum 3); ("name", VStr "ALPHA")].
Definition views_body : list (string * value) :=
  [("views", VArr [beta; alpha; ALPHA])].

(** [findIssue] when the session endpoint answers 401 and the issue
    endpoint answers 200. *)
Definition findIssue_after_401 : result unit :=
  @findIssue runtime "JRA-9" user_callback
    (start [Reply (respond 401 None VUndefined);
            Reply (respond 200 None (VStr "null"))]).

(** [issueLink] when both endpoints answer 200. *)
Definition issueLink_200 : result unit :=
  @issueLink runtime (VObj [("linkType", VStr "Duplicate")]) user_callback
    (start [Reply (respond 200 (Some session) VUndefined);
            Reply (respond 200 None VUndefined)]).

End Sample.

(** ** Notions for whole runs *)

Section Handlers.
Context `{Runtime}.

(** The handler an operation passes to [request]. *)
Definition handler_of (op : operation) (callback : list value -> M unit) : handler :=
  match op with
  | FindIssue _ => findIssue_handler callback
  | GetUnresolvedIssueCount _ => getUnresolvedIssueCount_handler callback
  | GetProject _ => getProject_handler callback
  | FindRapidView projectName => findRapidView_handler projectName callback
  | GetLastSprintForRapidView _ => getLastSprintForRapidView_handler callback
  | AddIssueToSprint _ _ => addIssueToSprint_handler callback
  | IssueLink _ => issueLink_handler callback
  | GetVersions _ => getVersions_handler callback
  | CreateVersion _ => createVersion_handler callback
  | SearchJira _ _ => searchJira_handler callback
  | GetUsersIssues _ _ => searchJira_handler callback
  | AddNewIssue _ => addNewIssue_handler callback
  | DeleteIssue _ => deleteIssue_handler callback
  | UpdateIssue _ _ => updateIssue_handler callback
  | ListTransitions _ => listTransitions_handler callback
  | TransitionIssue _ _ => transitionIssue_handler callback
  | ListProjects => listProjects_handler callback
  | AddWorklog _ _ => addWorklog_handler callback
  | ListIssueTypes => listIssueTypes_handler callback
  end.

End Handlers.

(** The operations whose handler calls back on every path when it has a
    response. *)
Definition always_confirms (op : operation) : bool :=
  match op with
  | IssueLink _ | CreateVersion _ | SearchJira _ _ | GetUsersIssues _ _
  | AddNewIssue _ | DeleteIssue _ | UpdateIssue _ _ | TransitionIssue _ _
  | AddWorklog _ _ | ListIssueTypes => true
  | _ => false
  end.

(** The two operations with a branch that calls back and goes on. *)
Definition falls_through (op : operation) : bool :=
  match op with
  | ListTransitions _ | ListProjects => true
  | _ => false
  end.

(** An argument list for the callback that does not carry both an error
    and a result: one argument, or [null] and a result. *)
Definition error_or_result (args : list value) : Prop :=
  match args with
  | [_] => True
  | [error; _] => error = VNull
  | _ => False
  end.

Definition not_a_request (e : event) : Prop :=
  match e with
  | EvRequest _ => False
  | EvCallback _ => True
  end.

Definition well_formed_callback (e : event) : Prop :=
  match e with
  | EvRequest _ => True
  | EvCallback args => error_or_result args
  end.

(** Every event of every run of [m] satisfies [P]. *)
Definition every {A : Type} (P : event -> Prop) (m : M A) : Prop :=
  forall s, Forall P (trace (m s)).

(** [m] leaves the object and the pending replies alone. *)
Definition steady {A : Type} (m : M A) : Prop :=
  forall s, final (m s) = s.

(** [m] has no event and no effect. *)
Definition inert {A : Type} (m : M A) : Prop :=
  forall s, trace (m s) = [] /\ final (m s) = s.

(** [m] has not called back when it runs to its end, and has called back
    at most once when it stops early. *)
Definition guarded {A : Type} (m : M A) : Prop :=
  forall s,
    match outcome (m s) with
    | Normal _ => callbacks (trace (m s)) = []
    | _ => (List.length (callbacks (trace (m s))) <= 1)%nat
    end.

Definition at_most_once {A : Type} (m : M A) : Prop :=
  forall s, (List.length (callbacks (trace (m s))) <= 1)%nat.

Create HintDb handlers.
#[global] Hint Unfold findIssue_handler getUnresolvedIssueCount_handler
  getProject_handler findRapidView_handler getLastSprintForRapidView_handler
  addIssueToSprint_handler issueLink_handler getVersions_handler
  createVersion_handler searchJira_handler addNewIssue_handler
  deleteIssue_handler updateIssue_handler listTransitions_handler
  transitionIssue_handler listProjects_handler addWorklog_handler
  listIssueTypes_handler : handlers.

(** The state in which the login's response and the operation's response
    are the next two replies. *)
Definition both_replies (j : JiraApi) (lresp resp : Response) (rest : list reply)
  : state :=
  {| self := j; pending := Reply lresp :: Reply resp :: rest |}.

(** ** More inputs to evaluate with *)

Module Inputs.

(** A login response with status 200 and a session cookie. *)
Definition ok : Response := Sample.respond 200 (Some Sample.session) VUndefined.

(** The text of [{"issuesUnresolvedCount":23}]. *)
Definition count_text : string :=
  "{" ++ dquote ++ "issuesUnresolvedCount" ++ dquote ++ ":23}".

(** The sample runtime, with a parser that also knows [count_text]. *)
Definition runtime : Runtime :=
  {| url_format := @url_format Sample.runtime;
     toLowerCase := @toLowerCase Sample.runtime;
     JSON_parse := fun v =>
       match v with
       | VStr s =>
           if String.eqb s count_text
           then Some (VObj [("issuesUnresolvedCount", VNum 23)])
           else @JSON_parse Sample.runtime v
       | _ => None
       end;
     JSON_stringify := @JSON_stringify Sample.runtime;
     Number_exceeds := @Number_exceeds Sample.runtime |}.

(** A client that holds the cookies of an earlier login. *)
Definition logged_in : JiraApi := with_cookies Sample.session Sample.jira.

(** A view without a name. *)
Definition unnamed : value := VObj [("id", VNum 9)].

(** [findRapidView] for [Alpha] on the views list [{id: 9}, {name: "alpha"}]:
    the only view named like the project comes after a view without a
    name. *)
Definition nameless_first : result unit :=
  @findRapidView Sample.runtime "Alpha" user_callback
    (both_replies Sample.jira ok
       (Build_Response 200 None (VObj [("views", VArr [unnamed; Sample.alpha])])) []).

End Inputs.

(** ** Properties *)

Lemma append_assoc (a b c : string) : (a ++ b) ++ c = a ++ (b ++ c).
Proof.
  induction a as [|x a IH]; simpl.
  - reflexivity.
  - now rewrite IH.
Qed.

Lemma contains_prefix (a b : string) : contains a (a ++ b).
Proof.
  exists "", b. reflexivity.
Qed.

Lemma returns_idem (r : result unit) : returns (returns r) = returns r.
Proof.
  destruct r as [t f o]; destruct o; reflexivity.
Qed.

Lemma returns_prepend (e : event) (r : result unit) :
  returns (prepend e r) = prepend e (returns r).
Proof.
  destruct r as [t f o]; destruct o; reflexivity.
Qed.

Lemma with_cookies_twice (a b : list string) (j : JiraApi) :
  with_cookies a (with_cookies b j) = with_cookies a j.
Proof.
  reflexivity.
Qed.

Section Properties.
Context `{Runtime}.

Lemma bind_this {A : Type} (f : JiraApi -> M A) (s : state) :
  bind this f s = f (self s) s.
Proof.
  unfold bind, this. destruct (f (self s) s) as [t s' c]. reflexivity.
Qed.

Lemma request_run (o : options) (h : handler) (s : state) :
  request o h s = prepend (EvRequest o) (deliver h s).
Proof.
  unfold request, bind, emit, prepend.
  destruct (deliver h s) as [t f c]. reflexivity.
Qed.

Lemma deliver_reply (h : handler) (j : JiraApi) (resp : Response) (rest : list reply) :
  deliver h {| self := j; pending := Reply resp :: rest |}
  = returns (h VNull (Some resp) (resp_body resp) {| self := j; pending := rest |}).
Proof.
  reflexivity.
Qed.

(** [login] on a response: its request goes out, the object is updated and
    the callback is called with the outcome. *)
Lemma login_run (k : list value -> M unit) (j : JiraApi) (resp : Response)
      (rest : list reply) :
  login k {| self := j; pending := Reply resp :: rest |}
  = prepend (EvRequest (login_options j))
      (returns (k (login_result resp) {| self := after_login j resp; pending := rest |})).
Proof.
  unfold login. rewrite bind_this, request_run, deliver_reply. f_equal.
  unfold login_handler, login_result, after_login.
  cbn -[Z_to_string String.append with_cookies].
  destruct (statusCode resp =? 401) eqn:E401; destruct (statusCode resp =? 200) eqn:E200;
    try (apply Z.eqb_eq in E401; apply Z.eqb_eq in E200; lia);
    try destruct (set_cookie resp) as [cs|] eqn:Ecs;
    unfold bind; cbn -[Z_to_string String.append with_cookies];
    rewrite ?with_cookies_twice;
    match goal with |- context [k ?a ?s] => destruct (k a s) as [t f [[]| |]] end; cbn;
    rewrite ?app_nil_r; reflexivity.
Qed.

(** Every operation is [login] followed by its closure. *)
Lemma invoke_continuation (op : operation) (callback : list value -> M unit) :
  invoke op callback = login (fun _ => function (continuation op callback)).
Proof.
  destruct op; reflexivity.
Qed.

(** The closure of every operation starts by issuing a request whose
    [Cookie] header is the stored cookies joined by [;]. *)
Lemma continuation_run (op : operation) (callback : list value -> M unit) (s : state) :
  exists o h,
    continuation op callback s = prepend (EvRequest o) (deliver h s)
    /\ headers o = Some [("Cookie", join ";" (cookies (self s)))].
Proof.
  destruct op; cbn [continuation]; autounfold with closures;
    rewrite bind_this, request_run; do 2 eexists; (split; [reflexivity | reflexivity]).
Qed.

(** An operation on a login response: the login request, then the closure
    run on the object as [login] left it. *)
Lemma invoke_run (op : operation) (callback : list value -> M unit) (j : JiraApi)
      (resp : Response) (rest : list reply) :
  invoke op callback {| self := j; pending := Reply resp :: rest |}
  = prepend (EvRequest (login_options j))
      (returns (continuation op callback
                  {| self := after_login j resp; pending := rest |})).
Proof.
  rewrite invoke_continuation, login_run.
  unfold function. now rewrite returns_idem.
Qed.

(** *** login and the stored cookies *)

(** C3. For every response to the login request: with status 200 login
    calls back with [null] and the stored cookies are the values of the
    response's set-cookie header, or the empty array when the header is
    missing; with status 401 login calls back with the authentication error,
    with any other status with the error carrying the status code, and in
    both cases the object, its stored cookies included, is what it was. *)
Theorem login_cookies (j : JiraApi) (resp : Response) (rest : list reply) :
  let r := login user_callback {| self := j; pending := Reply resp :: rest |} in
  (statusCode resp = 200 ->
     callbacks (trace r) = [[VNull]]
     /\ cookies (self (final r))
        = match set_cookie resp with Some cs => cs | None => [] end)
  /\ (statusCode resp = 401 ->
        callbacks (trace r)
        = [[VStr "Failed to log in to JIRA due to authentication error."]]
        /\ self (final r) = j)
  /\ (statusCode resp <> 200 -> statusCode resp <> 401 ->
        callbacks (trace r)
        = [[VStr (Z_to_string (statusCode resp)
                  ++ ": Unable to connect to JIRA during login.")]]
        /\ self (final r) = j).
Proof.
  cbv zeta. rewrite login_run. unfold login_result, after_login.
  split; [|split].
  - intros Hs. rewrite Hs. cbn. split; reflexivity.
  - intros Hs. rewrite Hs. cbn. split; reflexivity.
  - intros H200 H401. apply Z.eqb_neq in H200, H401. rewrite H200, H401.
    cbn -[Z_to_string String.append]. split; reflexivity.
Qed.

(** *** A failed login *)

(** C1, as the code has it. For every operation and every login response
    with a status other than 200 (401 included): the login request goes
    out, the object is left as it was, and the operation's closure runs all
    the same; it issues the operation's own request, whose [Cookie] header
    is built from the cookies stored before the attempt, and the reply to
    that request is handled as usual. The error [login] hands over is
    dropped. *)
Theorem failed_login_still_requests (op : operation) (callback : list value -> M unit)
        (j : JiraApi) (resp : Response) (rest : list reply) :
  statusCode resp <> 200 ->
  invoke op callback {| self := j; pending := Reply resp :: rest |}
  = prepend (EvRequest (login_options j))
      (returns (continuation op callback {| self := j; pending := rest |}))
  /\ exists o h,
       continuation op callback {| self := j; pending := rest |}
       = prepend (EvRequest o) (deliver h {| self := j; pending := rest |})
       /\ headers o = Some [("Cookie", join ";" (cookies j))].
Proof.
  intros Hs. split.
  - rewrite invoke_run. unfold after_login.
    apply Z.eqb_neq in Hs. now rewrite Hs.
  - apply continuation_run.
Qed.

(** *** The session cookie on the operation's request *)

(** C9. For every operation, when the login response has status 200 and a
    set-cookie header, the run starts with the login request followed by the
    operation's request, and that request carries a [Cookie] header equal to
    the header's values joined by [;], which is the value itself when the
    header has one. *)
Theorem cookie_header_after_login (op : operation) (callback : list value -> M unit)
        (j : JiraApi) (resp : Response) (rest : list reply) (cs : list string) :
  statusCode resp = 200 ->
  set_cookie resp = Some cs ->
  exists o r,
    invoke op callback {| self := j; pending := Reply resp :: rest |}
    = prepend (EvRequest (login_options j)) (prepend (EvRequest o) r)
    /\ headers o = Some [("Cookie", join ";" cs)]
    /\ (forall c, cs = [c] -> headers o = Some [("Cookie", c)]).
Proof.
  intros Hs Hcs.
  rewrite invoke_run. unfold after_login. rewrite Hs, Hcs. cbn [Z.eqb Pos.eqb].
  destruct (continuation_run op callback
              {| self := with_cookies cs j; pending := rest |}) as (o & h & Hrun & Hh).
  exists o, (returns (deliver h {| self := with_cookies cs j; pending := rest |})).
  rewrite Hrun, returns_prepend. cbn in Hh. repeat split.
  - exact Hh.
  - intros c ->. exact Hh.
Qed.

(** *** Status tables of single operations *)

(** Enters an operation whose login reply and own reply are both at hand:
    the two requests go out and the operation's handler gets its reply. *)
Ltac enter :=
  rewrite login_run; unfold function; autounfold with closures;
  rewrite bind_this, request_run, deliver_reply.

(** Runs a handler once the tests on the status code are decided. *)
Ltac run := unfold bind; cbn -[Z_to_string String.append].

(** C6. For every response to the request of [deleteIssue]: status 204
    gives the callback [(null, "Success")]; any other status gives it one
    argument, the string made of the status code followed by
    [": Error while deleting"], which contains the status code. *)
Theorem deleteIssue_outcome (issueNum : string) (j : JiraApi)
        (lresp resp : Response) (rest : list reply) :
  let r := deleteIssue issueNum user_callback
             {| self := j; pending := Reply lresp :: Reply resp :: rest |} in
  (statusCode resp = 204 -> callbacks (trace r) = [[VNull; VStr "Success"]])
  /\ (statusCode resp <> 204 ->
        callbacks (trace r)
        = [[VStr (Z_to_string (statusCode resp) ++ ": Error while deleting")]]
        /\ contains (Z_to_string (statusCode resp))
             (Z_to_string (statusCode resp) ++ ": Error while deleting")).
Proof.
  cbv zeta. unfold deleteIssue. enter.
  unfold deleteIssue_handler.
  cbn -[Z_to_string String.append].
  split; intros Hs.
  - rewrite Hs. run. reflexivity.
  - apply Z.eqb_neq in Hs. rewrite Hs. run.
    split; [reflexivity | apply contains_prefix].
Qed.

(** C7. For every response to the request of [createVersion]: status 201
    gives the callback [(null, body)], the body being the JSON the transport
    parsed; 403 gives the permission-to-edit text; 404 gives the
    version-visibility text; any other status gives the status code followed
    by [": Unable to connect to JIRA during createVersion."]. *)
Theorem createVersion_outcome (version : value) (j : JiraApi)
        (lresp resp : Response) (rest : list reply) :
  let r := createVersion version user_callback
             {| self := j; pending := Reply lresp :: Reply resp :: rest |} in
  (statusCode resp = 201 -> callbacks (trace r) = [[VNull; resp_body resp]])
  /\ (statusCode resp = 403 ->
        callbacks (trace r)
        = [[VStr "The currently authenticated user does not have permission to edit the version"]])
  /\ (statusCode resp = 404 ->
        callbacks (trace r)
        = [[VStr "Version does not exist or the currently authenticated user does not have permission to view it"]])
  /\ (statusCode resp <> 201 -> statusCode resp <> 403 -> statusCode resp <> 404 ->
        callbacks (trace r)
        = [[VStr (Z_to_string (statusCode resp)
                  ++ ": Unable to connect to JIRA during createVersion.")]]
        /\ contains (Z_to_string (statusCode resp))
             (Z_to_string (statusCode resp)
              ++ ": Unable to connect to JIRA during createVersion.")).
Proof.
  cbv zeta. unfold createVersion. enter.
  unfold createVersion_handler.
  cbn -[Z_to_string String.append].
  split; [|split; [|split]].
  - intros Hs. rewrite Hs. run. reflexivity.
  - intros Hs. rewrite Hs. run. reflexivity.
  - intros Hs. rewrite Hs. run. reflexivity.
  - intros H201 H403 H404. apply Z.eqb_neq in H201, H403, H404.
    rewrite H201, H403, H404. run.
    split; [reflexivity | apply contains_prefix].
Qed.

(** C8, as the code has it. On the success path [addIssueToSprint]
    (status 204) never invokes its callback, while [issueLink] (status 200)
    invokes it once, with [null] as its only argument. *)
Theorem success_confirmation (issueId link : value) (sprintId : string) (j : JiraApi)
        (lresp : Response) (cs : option (list string)) (b : value) (rest : list reply) :
  callbacks (trace (addIssueToSprint issueId sprintId user_callback
                      {| self := j;
                         pending := Reply lresp
                                    :: Reply {| statusCode := 204; set_cookie := cs;
                                                resp_body := b |} :: rest |})) = []
  /\ callbacks (trace (issueLink link user_callback
                         {| self := j;
                            pending := Reply lresp
                                       :: Reply {| statusCode := 200; set_cookie := cs;
                                                   resp_body := b |} :: rest |}))
     = [[VNull]].
Proof.
  split.
  - unfold addIssueToSprint. enter. reflexivity.
  - unfold issueLink. enter. reflexivity.
Qed.

(** C2, where the code leaves it. [listTransitions] on a 404 reply invokes
    the callback twice, with ["Issue not found"] and then with the generic
    error, and [listProjects] on a 500 reply invokes it twice as well: the
    branch for the status lacks the [return] its siblings have. *)
Theorem fall_through_calls_back_twice (issueId : string) (j : JiraApi)
        (lresp : Response) (cs : option (list string)) (b : value) (rest : list reply) :
  callbacks (trace (listTransitions issueId user_callback
                      {| self := j;
                         pending := Reply lresp
                                    :: Reply {| statusCode := 404; set_cookie := cs;
                                                resp_body := b |} :: rest |}))
  = [[VStr "Issue not found"]; [VStr "404: Error while updating"]]
  /\ callbacks (trace (listProjects user_callback
                         {| self := j;
                            pending := Reply lresp
                                       :: Reply {| statusCode := 500; set_cookie := cs;
                                                   resp_body := b |} :: rest |}))
     = [[VStr "500: Error while retrieving list."]; [VStr "500: Error while updating"]].
Proof.
  split.
  - unfold listTransitions. enter. reflexivity.
  - unfold listProjects. enter. reflexivity.
Qed.

(** *** The search request *)

(** C10. For every search string, [searchJira] with [null] for the fields
    sends the body [{jql, startAt: 0, fields}] with the fields
    ["summary", "status", "assignee", "description"]; and for every fields
    argument the body's [startAt] is 0. *)
Theorem searchJira_body (searchString : string) (fields : value)
        (callback : list value -> M unit) (j : JiraApi) (lresp : Response)
        (rest : list reply) :
  (exists o r,
     searchJira searchString VNull callback {| self := j; pending := Reply lresp :: rest |}
     = prepend (EvRequest (login_options j)) (prepend (EvRequest o) r)
     /\ body o
        = Some (VObj [("jql", VStr searchString);
                      ("startAt", VNum 0);
                      ("fields", VArr [VStr "summary"; VStr "status";
                                       VStr "assignee"; VStr "description"])]))
  /\ (exists o r props,
        searchJira searchString fields callback
          {| self := j; pending := Reply lresp :: rest |}
        = prepend (EvRequest (login_options j)) (prepend (EvRequest o) r)
        /\ body o = Some (VObj props)
        /\ lookup "startAt" props = Some (VNum 0)).
Proof.
  split; unfold searchJira; rewrite login_run; unfold function; autounfold with closures;
    rewrite bind_this, request_run, !returns_prepend.
  - do 2 eexists. split; reflexivity.
  - do 3 eexists. split; [reflexivity | split; reflexivity].
Qed.

(** C4. For every username, [getUsersIssues(user, true)] is [searchJira]
    called with the JQL string
    [assignee = <user> AND status in (Open, "In Progress", Reopened)] and
    [null] for the fields, and [getUsersIssues(user, false)] is [searchJira]
    called with [assignee = <user>]. *)
Theorem getUsersIssues_jql (user : string) (callback : list value -> M unit) :
  getUsersIssues user (VBool true) callback
  = searchJira ("assignee = " ++ user ++ " AND status in (Open, " ++ dquote
                ++ "In Progress" ++ dquote ++ ", Reopened)")
      VNull callback
  /\ getUsersIssues user (VBool false) callback
     = searchJira ("assignee = " ++ user) VNull callback.
Proof.
  unfold getUsersIssues. cbn [truthy]. split.
  - rewrite append_assoc. reflexivity.
  - reflexivity.
Qed.

(** *** findRapidView *)

Lemma bind_ret {A B : Type} (a : A) (f : A -> M B) (s : state) :
  bind (ret a) f s = f a s.
Proof.
  unfold bind, ret. destruct (f a s) as [t s' c]. reflexivity.
Qed.

(** Views whose names differ from the project's, case aside, are passed
    over. *)
Lemma findRapidView_loop_skip (pre views : list value) (projectName : string)
      (callback : list value -> M unit) (s : state) :
  (forall u, In u pre ->
     exists m, view_name u = Some m /\ toLowerCase m <> toLowerCase projectName) ->
  findRapidView_loop (pre ++ views) projectName callback s
  = findRapidView_loop views projectName callback s.
Proof.
  induction pre as [|u pre IH]; intros Hpre; [reflexivity|].
  destruct (Hpre u (or_introl eq_refl)) as (m & Hm & Hne).
  unfold view_name in Hm.
  destruct u as [| | | | |elems|props]; try discriminate.
  destruct (lookup "name" props) as [[| | | |name| |]|] eqn:Hname; try discriminate.
  injection Hm as ->.
  cbn [app findRapidView_loop get_prop]. rewrite Hname.
  unfold call_toLowerCase. rewrite !bind_ret.
  apply String.eqb_neq in Hne. rewrite Hne. cbn [If_]. rewrite bind_ret.
  apply IH. intros u Hu. apply Hpre. now right.
Qed.

(** A view whose name equals the project's, case aside, is handed to the
    callback, and the handler returns. *)
Lemma findRapidView_loop_hit (v : value) (post : list value) (projectName m : string)
      (s : state) :
  view_name v = Some m ->
  toLowerCase m = toLowerCase projectName ->
  findRapidView_loop (v :: post) projectName user_callback s
  = Build_result [EvCallback [VNull; v]] s Returned.
Proof.
  intros Hm Heq. unfold view_name in Hm.
  destruct v as [| | | | |elems|props]; try discriminate.
  destruct (lookup "name" props) as [[| | | |name| |]|] eqn:Hname; try discriminate.
  injection Hm as ->.
  cbn [findRapidView_loop get_prop]. rewrite Hname.
  unfold call_toLowerCase. rewrite !bind_ret.
  apply String.eqb_eq in Heq. rewrite Heq. reflexivity.
Qed.

(** With no view of that name the loop never reaches the callback. *)
Lemma findRapidView_loop_miss (views : list value) (projectName : string) (s : state) :
  (forall u m, In u views -> view_name u = Some m ->
     toLowerCase m <> toLowerCase projectName) ->
  trace (findRapidView_loop views projectName user_callback s) = [].
Proof.
  induction views as [|u views IH]; intros Hall; [reflexivity|].
  assert (Hu : forall m, view_name u = Some m ->
                 toLowerCase m <> toLowerCase projectName)
    by (intros m; apply Hall; now left).
  assert (Hviews : forall u' m, In u' views -> view_name u' = Some m ->
                     toLowerCase m <> toLowerCase projectName)
    by (intros u' m Hin; apply Hall; now right).
  specialize (IH Hviews).
  destruct u as [| |b|n|str|elems|props]; try reflexivity.
  cbn [findRapidView_loop get_prop].
  destruct (lookup "name" props) as [[| |b|n|name|elems|props']|] eqn:Hname;
    try reflexivity.
  unfold call_toLowerCase. rewrite !bind_ret.
  assert (Hne : toLowerCase name <> toLowerCase projectName)
    by (apply Hu; unfold view_name; now rewrite Hname).
  apply String.eqb_neq in Hne. rewrite Hne. cbn [If_]. rewrite bind_ret.
  exact IH.
Qed.

(** C5, as the code has it. For every 200 response whose body holds a
    views list: when every view before it has a string for a name,
    [findRapidView(projectName)] calls back with [(null, view)] for the
    first view whose name equals [projectName] once both are lowered; and
    when no view has such a name the callback is not invoked. *)
Theorem findRapidView_first_match (projectName : string) (j : JiraApi)
        (lresp resp : Response) (rest : list reply)
        (props : list (string * value)) (views : list value) :
  statusCode resp = 200 ->
  resp_body resp = VObj props ->
  lookup "views" props = Some (VArr views) ->
  let r := findRapidView projectName user_callback
             {| self := j; pending := Reply lresp :: Reply resp :: rest |} in
  (forall (pre : list value) (v : value) (post : list value) (m : string),
     views = (pre ++ v :: post)%list ->
     (forall u, In u pre ->
        exists m', view_name u = Some m' /\ toLowerCase m' <> toLowerCase projectName) ->
     view_name v = Some m ->
     toLowerCase m = toLowerCase projectName ->
     callbacks (trace r) = [[VNull; v]])
  /\ ((forall u m, In u views -> view_name u = Some m ->
         toLowerCase m <> toLowerCase projectName) ->
      callbacks (trace r) = []).
Proof.
  intros Hs Hbody Hviews. cbv zeta.
  unfold findRapidView. enter.
  unfold findRapidView_handler.
  cbn [get_statusCode get_body]. rewrite bind_ret, Hs.
  cbn [Z.eqb Pos.eqb negb If_]. rewrite !bind_ret, Hbody.
  unfold is_null, negb, If_, get_prop. rewrite Hviews, bind_ret.
  unfold indexed_elements. rewrite bind_ret.
  split.
  - intros pre v post m -> Hpre Hm Heq.
    rewrite findRapidView_loop_skip by exact Hpre.
    rewrite (findRapidView_loop_hit v post projectName m _ Hm Heq).
    reflexivity.
  - intros Hall.
    pose proof (findRapidView_loop_miss views projectName
                  {| self := after_login j lresp; pending := rest |} Hall) as Hmiss.
    destruct (findRapidView_loop views projectName user_callback
                {| self := after_login j lresp; pending := rest |}) as [t f o].
    cbn in Hmiss. subst t. destruct o; reflexivity.
Qed.

End Properties.

(** ** The theorems at concrete inputs *)

Lemma login_cookies_witness :
  (statusCode (Sample.respond 200 (Some Sample.session) VUndefined) = 200
   /\ callbacks (trace (@login Sample.runtime user_callback
                          (Sample.start [Reply (Sample.respond 200 (Some Sample.session)
                                                  VUndefined)])))
      = [[VNull]]
   /\ cookies (self (final (@login Sample.runtime user_callback
                              (Sample.start [Reply (Sample.respond 200 (Some Sample.session)
                                                      VUndefined)]))))
      = Sample.session)
  /\ (statusCode (Sample.respond 401 (Some ["fresh=1"]) VUndefined) = 401
      /\ self (final (@login Sample.runtime user_callback
                        {| self := with_cookies Sample.session Sample.jira;
                           pending := [Reply (Sample.respond 401 (Some ["fresh=1"])
                                                VUndefined)] |}))
         = with_cookies Sample.session Sample.jira)
  /\ (statusCode (Sample.respond 503 (Some ["fresh=1"]) VUndefined) <> 200
      /\ statusCode (Sample.respond 503 (Some ["fresh=1"]) VUndefined) <> 401
      /\ callbacks (trace (@login Sample.runtime user_callback
                             {| self := with_cookies Sample.session Sample.jira;
                                pending := [Reply (Sample.respond 503 (Some ["fresh=1"])
                                                     VUndefined)] |}))
         = [[VStr "503: Unable to connect to JIRA during login."]]).
Proof.
  split; [|split].
  - split; [reflexivity|].
    apply (proj1 (@login_cookies Sample.runtime Sample.jira
                    (Sample.respond 200 (Some Sample.session) VUndefined) [])).
    reflexivity.
  - split; [reflexivity|].
    apply (proj1 (proj2 (@login_cookies Sample.runtime
                           (with_cookies Sample.session Sample.jira)
                           (Sample.respond 401 (Some ["fresh=1"]) VUndefined) []))).
    reflexivity.
  - split; [discriminate|]. split; [discriminate|].
    apply (proj2 (proj2 (@login_cookies Sample.runtime
                           (with_cookies Sample.session Sample.jira)
                           (Sample.respond 503 (Some ["fresh=1"]) VUndefined) [])));
      discriminate.
Defined.

Lemma failed_login_still_requests_witness :
  statusCode (Sample.respond 401 None VUndefined) <> 200
  /\ @invoke Sample.runtime (FindIssue "JRA-9") user_callback
       (Sample.start [Reply (Sample.respond 401 None VUndefined)])
     = prepend (EvRequest (@login_options Sample.runtime Sample.jira))
         (returns (@continuation Sample.runtime (FindIssue "JRA-9") user_callback
                     (Sample.start []))).
Proof.
  split; [discriminate|].
  apply (@failed_login_still_requests Sample.runtime (FindIssue "JRA-9") user_callback
           Sample.jira (Sample.respond 401 None VUndefined) []).
  discriminate.
Defined.

Lemma cookie_header_after_login_witness :
  statusCode (Sample.respond 200 (Some Sample.session) VUndefined) = 200
  /\ exists o r,
       @invoke Sample.runtime ListProjects user_callback
         (Sample.start [Reply (Sample.respond 200 (Some Sample.session) VUndefined)])
       = prepend (EvRequest (@login_options Sample.runtime Sample.jira))
           (prepend (EvRequest o) r)
       /\ headers o = Some [("Cookie", "JSESSIONID=6E3487971234567896704A9EB4AE501F")].
Proof.
  split; [reflexivity|].
  destruct (@cookie_header_after_login Sample.runtime ListProjects user_callback
              Sample.jira (Sample.respond 200 (Some Sample.session) VUndefined) []
              Sample.session eq_refl eq_refl) as (o & r & Hrun & Hjoin & Hone).
  exists o, r. split; [exact Hrun|]. apply Hone. reflexivity.
Defined.

Lemma deleteIssue_outcome_witness :
  (statusCode (Sample.respond 204 None VUndefined) = 204
   /\ callbacks (trace (@deleteIssue Sample.runtime "JRA-9" user_callback
                          (Sample.start [Reply (Sample.respond 200 None VUndefined);
                                         Reply (Sample.respond 204 None VUndefined)])))
      = [[VNull; VStr "Success"]])
  /\ (statusCode (Sample.respond 500 None VUndefined) <> 204
      /\ callbacks (trace (@deleteIssue Sample.runtime "JRA-9" user_callback
                             (Sample.start [Reply (Sample.respond 200 None VUndefined);
                                            Reply (Sample.respond 500 None VUndefined)])))
         = [[VStr "500: Error while deleting"]]).
Proof.
  split.
  - split; [reflexivity|].
    apply (proj1 (@deleteIssue_outcome Sample.runtime "JRA-9" Sample.jira
                    (Sample.respond 200 None VUndefined)
                    (Sample.respond 204 None VUndefined) [])).
    reflexivity.
  - split; [discriminate|].
    apply (proj2 (@deleteIssue_outcome Sample.runtime "JRA-9" Sample.jira
                    (Sample.respond 200 None VUndefined)
                    (Sample.respond 500 None VUndefined) [])).
    discriminate.
Defined.

Lemma createVersion_outcome_witness :
  (statusCode (Sample.respond 201 None (VObj [("name", VStr "X")])) = 201
   /\ callbacks (trace (@createVersion Sample.runtime (VObj [("name", VStr "X")])
                          user_callback
                          (Sample.start [Reply (Sample.respond 200 None VUndefined);
                                         Reply (Sample.respond 201 None
                                                  (VObj [("name", VStr "X")]))])))
      = [[VNull; VObj [("name", VStr "X")]]])
  /\ (statusCode (Sample.respond 403 None VUndefined) = 403
      /\ callbacks (trace (@createVersion Sample.runtime (VObj [("name", VStr "X")])
                             user_callback
                             (Sample.start [Reply (Sample.respond 200 None VUndefined);
                                            Reply (Sample.respond 403 None VUndefined)])))
         = [[VStr "The currently authenticated user does not have permission to edit the version"]])
  /\ (statusCode (Sample.respond 500 None VUndefined) <> 201
      /\ callbacks (trace (@createVersion Sample.runtime (VObj [("name", VStr "X")])
                             user_callback
                             (Sample.start [Reply (Sample.respond 200 None VUndefined);
                                            Reply (Sample.respond 500 None VUndefined)])))
         = [[VStr "500: Unable to connect to JIRA during createVersion."]]).
Proof.
  split; [|split].
  - split; [reflexivity|].
    apply (proj1 (@createVersion_outcome Sample.runtime (VObj [("name", VStr "X")])
                    Sample.jira (Sample.respond 200 None VUndefined)
                    (Sample.respond 201 None (VObj [("name", VStr "X")])) [])).
    reflexivity.
  - split; [reflexivity|].
    apply (proj1 (proj2 (@createVersion_outcome Sample.runtime (VObj [("name", VStr "X")])
                           Sample.jira (Sample.respond 200 None VUndefined)
                           (Sample.respond 403 None VUndefined) []))).
    reflexivity.
  - split; [discriminate|].
    apply (proj2 (proj2 (proj2 (@createVersion_outcome Sample.runtime
                                  (VObj [("name", VStr "X")])
                                  Sample.jira (Sample.respond 200 None VUndefined)
                                  (Sample.respond 500 None VUndefined) []))));
      discriminate.
Defined.

Lemma findRapidView_first_match_witness :
  @toLowerCase Sample.runtime "alpha" = @toLowerCase Sample.runtime "Alpha"
  /\ callbacks (trace (@findRapidView Sample.runtime "Alpha" user_callback
                         (Sample.start [Reply (Sample.respond 200 None VUndefined);
                                        Reply (Sample.respond 200 None
                                                 (VObj Sample.views_body))])))
     = [[VNull; Sample.alpha]].
Proof.
  split; [reflexivity|].
  apply (proj1 (@findRapidView_first_match Sample.runtime "Alpha" Sample.jira
                  (Sample.respond 200 None VUndefined)
                  (Sample.respond 200 None (VObj Sample.views_body)) []
                  Sample.views_body [Sample.beta; Sample.alpha; Sample.ALPHA]
                  eq_refl eq_refl eq_refl)
           [Sample.beta] Sample.alpha [Sample.ALPHA] "alpha").
  - reflexivity.
  - intros u [<-|[]]. exists "Beta". split; [reflexivity | discriminate].
  - reflexivity.
  - reflexivity.
Defined.

(** ** Where the code departs from a claim *)

(** C1 as stated fails: after a 401 from the session endpoint [findIssue]
    still issues its request, and the caller gets the issue, not the
    authentication error. *)
Lemma failed_login_no_short_circuit :
  statusCode (Sample.respond 401 None VUndefined) = 401
  /\ List.length (requests (trace Sample.findIssue_after_401)) = 2%nat
  /\ callbacks (trace Sample.findIssue_after_401) = [[VNull; VNull]]
  /\ ~ (requests (trace Sample.findIssue_after_401)
        = [@login_options Sample.runtime Sample.jira]
        /\ callbacks (trace Sample.findIssue_after_401)
           = [[VStr "Failed to log in to JIRA due to authentication error."]]).
Proof.
  split; [reflexivity|]. split; [reflexivity|]. split; [reflexivity|].
  intros [_ Hcb]. vm_compute in Hcb. discriminate.
Defined.

(** C8 as stated fails for [issueLink]: on status 200 its callback is
    invoked, with [null]. *)
Lemma issueLink_calls_back_on_success :
  callbacks (trace Sample.issueLink_200) = [[VNull]]
  /\ callbacks (trace Sample.issueLink_200) <> [].
Proof.
  split; [reflexivity | discriminate].
Defined.

(** C5 as stated fails when a view before the match has no name: [alpha]
    is the first view, and the only one, whose name equals the project's
    case aside, yet the handler throws on the view before it and the
    callback is never invoked. *)
Lemma findRapidView_nameless_view_first :
  view_name Inputs.unnamed = None
  /\ view_name Sample.alpha = Some "alpha"
  /\ @toLowerCase Sample.runtime "alpha" = @toLowerCase Sample.runtime "Alpha"
  /\ callbacks (trace Inputs.nameless_first) = []
  /\ outcome Inputs.nameless_first = Threw
  /\ callbacks (trace Inputs.nameless_first) <> [[VNull; Sample.alpha]].
Proof.
  split; [reflexivity|]. split; [reflexivity|]. split; [reflexivity|].
  split; [reflexivity|]. split; [reflexivity|].
  vm_compute. discriminate.
Defined.

(** ** The loop over an object with numbered keys *)

Lemma Z_to_string_inj (a b : Z) : Z_to_string a = Z_to_string b -> a = b.
Proof.
  unfold Z_to_string. intros Heq.
  assert (Hnn : forall z, Z.to_int z <> Decimal.Pos Decimal.Nil
                          /\ Z.to_int z <> Decimal.Neg Decimal.Nil).
  { intros [|p|p]; split; try discriminate; cbn;
      intros [= Hp]; now apply (DecimalPos.Unsigned.to_uint_nonnil p). }
  apply DecimalZ.to_int_inj.
  assert (Hs : Some (Z.to_int a) = Some (Z.to_int b)).
  { rewrite <- (NilZero.isi (Z.to_int a)) by apply Hnn.
    rewrite <- (NilZero.isi (Z.to_int b)) by apply Hnn.
    now rewrite Heq. }
  now injection Hs.
Qed.

Lemma lookup_in {A : Type} (k : string) (l : list (string * A)) :
  lookup k l <> None -> In k (map fst l).
Proof.
  induction l as [|[k' v] l IH]; cbn [lookup map fst]; [congruence|].
  destruct (String.eqb_spec k k') as [->|Hne]; intros Hl.
  - now left.
  - right. now apply IH.
Qed.

(** An object cannot have more keys ["0"] .. ["n - 1"] than entries. *)
Lemma numbered_keys_bound (n : nat) (props : list (string * value)) :
  (forall m, (m < n)%nat -> lookup (Z_to_string (Z.of_nat m)) props <> None) ->
  (n <= List.length props)%nat.
Proof.
  intros Hkeys.
  assert (Hle : (List.length (map (fun m => Z_to_string (Z.of_nat m)) (seq 0 n))
                 <= List.length (map fst props))%nat).
  { apply NoDup_incl_length.
    - apply Injective_map_NoDup; [|apply seq_NoDup].
      intros a b Hab. apply Z_to_string_inj in Hab. lia.
    - intros k Hk. apply in_map_iff in Hk. destruct Hk as (m & <- & Hm).
      apply in_seq in Hm. apply lookup_in, Hkeys. lia. }
  rewrite !length_map, length_seq in Hle. exact Hle.
Qed.

Lemma array_like_elements_step (fuel i : nat) (below : Z -> bool)
      (props : list (string * value)) :
  array_like_elements fuel i below props
  = if below (Z.of_nat i) then
      match lookup (Z_to_string (Z.of_nat i)) props with
      | None => [VUndefined]
      | Some elem =>
          elem :: match fuel with
                  | O => []
                  | S fuel' => array_like_elements fuel' (S i) below props
                  end
      end
    else [].
Proof.
  destruct fuel; reflexivity.
Qed.

(** The fuel that [indexed_elements] gives is never what ends the list:
    more of it changes nothing. *)
Lemma array_like_elements_fuel (below : Z -> bool) (props : list (string * value))
      (fuel i extra : nat) :
  (forall m, (m < i)%nat -> lookup (Z_to_string (Z.of_nat m)) props <> None) ->
  (List.length props <= i + fuel)%nat ->
  array_like_elements (fuel + extra) i below props
  = array_like_elements fuel i below props.
Proof.
  revert i. induction fuel as [|fuel IH]; intros i Hkeys Hlen;
    rewrite (array_like_elements_step (_ + extra)), (array_like_elements_step _ i);
    destruct (below (Z.of_nat i)); try reflexivity;
    destruct (lookup (Z_to_string (Z.of_nat i)) props) as [elem|] eqn:Hi;
    try reflexivity; f_equal.
  - exfalso.
    assert (Hb : (S i <= List.length props)%nat).
    { apply numbered_keys_bound. intros m Hm.
      destruct (Nat.eq_dec m i) as [->|Hne]; [congruence | apply Hkeys; lia]. }
    lia.
  - cbn [Nat.add]. apply IH; [|lia].
    intros m Hm.
    destruct (Nat.eq_dec m i) as [->|Hne]; [congruence | apply Hkeys; lia].
Qed.

Lemma array_like_elements_enough (below : Z -> bool) (props : list (string * value))
      (extra : nat) :
  array_like_elements (List.length props + extra) 0 below props
  = array_like_elements (List.length props) 0 below props.
Proof.
  apply array_like_elements_fuel; [intros m Hm; lia | lia].
Qed.

(** An object with a [length] and numbered keys in the place of the views
    array is gone through like an array: the view under ["1"] is the first
    named like the project; and where [length] promises a view that is not
    there, the loop throws on it. *)
Example findRapidView_array_like :
  callbacks (trace (@findRapidView Sample.runtime "Alpha" user_callback
                      (both_replies Sample.jira Inputs.ok
                         (Build_Response 200 None
                            (VObj [("views", VObj [("0", Sample.beta);
                                                   ("1", Sample.alpha);
                                                   ("length", VNum 2)])])) [])))
  = [[VNull; Sample.alpha]]
  /\ outcome (@findRapidView Sample.runtime "Gamma" user_callback
                (both_replies Sample.jira Inputs.ok
                   (Build_Response 200 None
                      (VObj [("views", VObj [("0", Sample.beta);
                                             ("1", Sample.alpha);
                                             ("length", VNum 3)])])) []))
     = Threw.
Proof.
  split; reflexivity.
Qed.

(** ** Runs of every operation *)

Lemma callbacks_app (a b : list event) :
  callbacks (a ++ b) = (callbacks a ++ callbacks b)%list.
Proof.
  induction a as [|[o|args] a IH]; simpl; [reflexivity | exact IH | now rewrite IH].
Qed.

Lemma requests_app (a b : list event) :
  requests (a ++ b) = (requests a ++ requests b)%list.
Proof.
  induction a as [|[o|args] a IH]; simpl; [reflexivity | now rewrite IH | exact IH].
Qed.

Lemma requests_none (t : list event) :
  Forall not_a_request t -> requests t = [].
Proof.
  induction 1 as [|[o|args] t Hx Ht IH]; simpl; [reflexivity | destruct Hx | exact IH].
Qed.

Lemma callbacks_well_formed (t : list event) :
  Forall well_formed_callback t -> Forall error_or_result (callbacks t).
Proof.
  induction 1 as [|[o|args] t Hx Ht IH]; simpl; [constructor | exact IH | now constructor].
Qed.

(** *** Closure of the notions under the monad *)

Lemma every_inert {A : Type} (P : event -> Prop) (m : M A) : inert m -> every P m.
Proof.
  intros Hm s. destruct (Hm s) as [-> _]. constructor.
Qed.

Lemma steady_inert {A : Type} (m : M A) : inert m -> steady m.
Proof.
  intros Hm s. apply Hm.
Qed.

Lemma guarded_inert {A : Type} (m : M A) : inert m -> guarded m.
Proof.
  intros Hm s. destruct (Hm s) as [Ht _]. rewrite Ht.
  destruct (outcome (m s)); simpl; auto.
Qed.

Lemma every_bind {A B : Type} (P : event -> Prop) (m : M A) (f : A -> M B) :
  every P m -> (forall a, every P (f a)) -> every P (bind m f).
Proof.
  intros Hm Hf s. unfold bind. specialize (Hm s).
  destruct (m s) as [t1 s1 [a| |]]; simpl in *; try exact Hm.
  specialize (Hf a s1). destruct (f a s1) as [t2 s2 o2]; simpl in *.
  apply Forall_app. split; assumption.
Qed.

Lemma steady_bind {A B : Type} (m : M A) (f : A -> M B) :
  steady m -> (forall a, steady (f a)) -> steady (bind m f).
Proof.
  intros Hm Hf s. unfold bind. specialize (Hm s).
  destruct (m s) as [t1 s1 [a| |]]; simpl in *; try exact Hm.
  specialize (Hf a s1). destruct (f a s1) as [t2 s2 o2]; simpl in *. congruence.
Qed.

Lemma guarded_bind {A B : Type} (m : M A) (f : A -> M B) :
  guarded m -> (forall a, guarded (f a)) -> guarded (bind m f).
Proof.
  intros Hm Hf s. unfold bind. specialize (Hm s).
  destruct (m s) as [t1 s1 [a| |]]; simpl in *; try exact Hm.
  specialize (Hf a s1). destruct (f a s1) as [t2 s2 o2]; simpl in *.
  rewrite callbacks_app, Hm. exact Hf.
Qed.

Lemma at_most_once_bind {A B : Type} (m : M A) (f : A -> M B) :
  guarded m -> (forall a, at_most_once (f a)) -> at_most_once (bind m f).
Proof.
  intros Hm Hf s. unfold bind. specialize (Hm s).
  destruct (m s) as [t1 s1 [a| |]]; simpl in *; try exact Hm.
  specialize (Hf a s1). destruct (f a s1) as [t2 s2 o2]; simpl in *.
  rewrite callbacks_app, Hm. exact Hf.
Qed.

Lemma at_most_once_guarded {A : Type} (m : M A) : guarded m -> at_most_once m.
Proof.
  intros Hm s. specialize (Hm s).
  destruct (outcome (m s)); try exact Hm. rewrite Hm. simpl. lia.
Qed.

Lemma every_If (P : event -> Prop) (c : bool) (m : M unit) :
  every P m -> every P (If_ c m).
Proof.
  intros Hm. destruct c; [exact Hm | intros s; constructor].
Qed.

Lemma steady_If (c : bool) (m : M unit) : steady m -> steady (If_ c m).
Proof.
  intros Hm. destruct c; [exact Hm | intros s; reflexivity].
Qed.

Lemma guarded_If (c : bool) (m : M unit) : guarded m -> guarded (If_ c m).
Proof.
  intros Hm. destruct c; [exact Hm | intros s; reflexivity].
Qed.

Lemma every_user_callback (P : event -> Prop) (args : list value) :
  P (EvCallback args) -> every P (user_callback args).
Proof.
  intros HP s. repeat constructor. exact HP.
Qed.

Lemma steady_user_callback (args : list value) : steady (user_callback args).
Proof.
  intros s. reflexivity.
Qed.

Lemma at_most_once_user_callback (args : list value) :
  at_most_once (user_callback args).
Proof.
  intros s. simpl. lia.
Qed.

(** [callback(...); return;] *)
Lemma guarded_callback_return (args : list value) :
  guarded (bind (user_callback args) (fun _ => @Return unit)).
Proof.
  intros s. simpl. lia.
Qed.

Lemma inert_ret {A : Type} (a : A) : inert (ret a).
Proof. intros s. split; reflexivity. Qed.

Lemma inert_throw {A : Type} : inert (@throw A).
Proof. intros s. split; reflexivity. Qed.

Lemma inert_Return {A : Type} : inert (@Return A).
Proof. intros s. split; reflexivity. Qed.

Lemma inert_get_statusCode (response : option Response) : inert (get_statusCode response).
Proof. destruct response; intros s; split; reflexivity. Qed.

Lemma inert_get_body (response : option Response) : inert (get_body response).
Proof. destruct response; intros s; split; reflexivity. Qed.

Lemma inert_get_prop (v : value) (k : string) : inert (get_prop v k).
Proof.
  destruct v as [| | | | | |props]; try (intros ?; split; reflexivity).
  unfold get_prop. destruct (lookup k props); intros s; split; reflexivity.
Qed.

Lemma inert_indexed_elements `{Runtime} (v : value) : inert (indexed_elements v).
Proof.
  destruct v as [| | | | | |props]; try (intros ?; split; reflexivity).
  unfold indexed_elements.
  destruct (index_below _ 0); intros s; split; reflexivity.
Qed.

Lemma inert_call_pop (v : value) : inert (call_pop v).
Proof. destruct v; intros ?; split; reflexivity. Qed.

Lemma inert_parse `{Runtime} (v : value) : inert (parse v).
Proof. unfold parse. destruct (JSON_parse v); intros s; split; reflexivity. Qed.

Lemma inert_call_toLowerCase `{Runtime} (v : value) : inert (call_toLowerCase v).
Proof. destruct v; intros ?; split; reflexivity. Qed.

Create HintDb inert.
#[global] Hint Resolve inert_ret inert_throw inert_Return
  inert_get_statusCode inert_get_body inert_get_prop inert_indexed_elements
  inert_call_pop inert_parse inert_call_toLowerCase : inert.

(** *** The handlers *)

Ltac next_binder :=
  lazymatch goal with |- forall _, _ => intro end.

Ltac walk_every :=
  repeat first
    [ next_binder
    | apply every_user_callback; first [exact I | reflexivity]
    | apply every_bind
    | apply every_If
    | apply every_inert; solve [auto with inert] ].

Ltac walk_steady :=
  repeat first
    [ next_binder
    | apply steady_user_callback
    | apply steady_bind
    | apply steady_If
    | apply steady_inert; solve [auto with inert] ].

Ltac walk_guarded :=
  repeat first
    [ next_binder
    | apply guarded_callback_return
    | apply guarded_bind
    | apply guarded_If
    | apply guarded_inert; solve [auto with inert] ].

Section Handlers.
Context `{Runtime}.

Lemma findRapidView_loop_every (P : event -> Prop) (views : list value)
      (projectName : string) :
  (forall args, error_or_result args -> P (EvCallback args)) ->
  every P (findRapidView_loop views projectName user_callback).
Proof.
  intros HP. induction views as [|view views IH]; cbn [findRapidView_loop].
  - apply every_inert. auto with inert.
  - repeat first
      [ next_binder | exact IH
      | apply every_user_callback; apply HP; first [exact I | reflexivity]
      | apply every_bind | apply every_If
      | apply every_inert; solve [auto with inert] ].
Qed.

Lemma findRapidView_loop_steady (views : list value) (projectName : string) :
  steady (findRapidView_loop views projectName user_callback).
Proof.
  induction views as [|view views IH]; cbn [findRapidView_loop].
  - apply steady_inert. auto with inert.
  - repeat first [ exact IH | progress walk_steady ].
Qed.

Lemma findRapidView_loop_guarded (views : list value) (projectName : string) :
  guarded (findRapidView_loop views projectName user_callback).
Proof.
  induction views as [|view views IH]; cbn [findRapidView_loop].
  - apply guarded_inert. auto with inert.
  - repeat first [ exact IH | progress walk_guarded ].
Qed.

(** No handler issues a request. *)
Lemma handler_no_request (op : operation) (e : value) (response : option Response)
      (b : value) :
  every not_a_request (handler_of op user_callback e response b).
Proof.
  destruct op; cbn [handler_of]; autounfold with handlers;
    repeat first
      [ apply findRapidView_loop_every; intros; exact I | progress walk_every ].
Qed.

(** No handler hands the callback both an error and a result. *)
Lemma handler_well_formed (op : operation) (e : value) (response : option Response)
      (b : value) :
  every well_formed_callback (handler_of op user_callback e response b).
Proof.
  destruct op; cbn [handler_of]; autounfold with handlers;
    repeat first
      [ apply findRapidView_loop_every; intros; assumption | progress walk_every ].
Qed.

(** No handler touches the object. *)
Lemma handler_steady (op : operation) (e : value) (response : option Response)
      (b : value) :
  steady (handler_of op user_callback e response b).
Proof.
  destruct op; cbn [handler_of]; autounfold with handlers;
    repeat first [ apply findRapidView_loop_steady | progress walk_steady ].
Qed.

(** Apart from the two that fall through, no handler calls back twice. *)
Lemma handler_at_most_once (op : operation) (e : value) (response : option Response)
      (b : value) :
  falls_through op = false ->
  at_most_once (handler_of op user_callback e response b).
Proof.
  destruct op; try discriminate; intros _; cbn [handler_of]; autounfold with handlers;
    repeat first
      [ next_binder
      | apply at_most_once_user_callback
      | apply at_most_once_bind;
        [ solve [repeat first [ apply findRapidView_loop_guarded | progress walk_guarded ]] | ]
      | apply at_most_once_guarded;
        solve [repeat first [ apply findRapidView_loop_guarded | progress walk_guarded ]] ].
Qed.

End Handlers.

(** *** Runs *)

Lemma trace_returns (r : result unit) : trace (returns r) = trace r.
Proof. destruct r as [t s [[]| |]]; reflexivity. Qed.

Lemma final_returns (r : result unit) : final (returns r) = final r.
Proof. destruct r as [t s [[]| |]]; reflexivity. Qed.

Lemma trace_prepend {A : Type} (e : event) (r : result A) :
  trace (prepend e r) = e :: trace r.
Proof. destruct r; reflexivity. Qed.

Lemma final_prepend {A : Type} (e : event) (r : result A) :
  final (prepend e r) = final r.
Proof. destruct r; reflexivity. Qed.

Lemma outcome_prepend {A : Type} (e : event) (r : result A) :
  outcome (prepend e r) = outcome r.
Proof. destruct r; reflexivity. Qed.

(** The trace of a delivery is the trace of the handler on the reply at
    the head, if there is one. *)
Lemma deliver_trace (h : handler) (s : state) :
  trace (deliver h s) = []
  \/ exists e response b s', trace (deliver h s) = trace (h e response b s').
Proof.
  destruct s as [j [|[e|resp] rest]]; unfold deliver, function; cbn [pending self].
  - now left.
  - right. exists e, None, VUndefined, {| self := j; pending := rest |}.
    apply trace_returns.
  - right. exists VNull, (Some resp), (resp_body resp), {| self := j; pending := rest |}.
    apply trace_returns.
Qed.

Lemma deliver_self (h : handler) (s : state) :
  (forall e response b, steady (h e response b)) ->
  self (final (deliver h s)) = self s.
Proof.
  intros Hh.
  destruct s as [j [|[e|resp] rest]]; unfold deliver, function; cbn [pending self].
  - reflexivity.
  - now rewrite final_returns, Hh.
  - now rewrite final_returns, Hh.
Qed.

Section Runs.
Context `{Runtime}.

Lemma login_no_reply (k : list value -> M unit) (j : JiraApi) :
  login k {| self := j; pending := [] |}
  = Build_result [EvRequest (login_options j)] {| self := j; pending := [] |} (Normal tt).
Proof.
  unfold login. rewrite bind_this, request_run. reflexivity.
Qed.

Lemma login_transport_error (k : list value -> M unit) (j : JiraApi) (e : value)
      (rest : list reply) :
  login k {| self := j; pending := TransportError e :: rest |}
  = Build_result [EvRequest (login_options j)] {| self := j; pending := rest |} Threw.
Proof.
  unfold login. rewrite bind_this, request_run. reflexivity.
Qed.

(** The closure of an operation: its request, then the delivery of the
    reply to its handler. *)
Lemma continuation_handler (op : operation) (callback : list value -> M unit)
      (s : state) :
  exists o,
    continuation op callback s
    = prepend (EvRequest o) (deliver (handler_of op callback) s)
    /\ headers o = Some [("Cookie", join ";" (cookies (self s)))].
Proof.
  destruct op; cbn [continuation handler_of]; autounfold with closures;
    rewrite bind_this, request_run; eexists; (split; [reflexivity | reflexivity]).
Qed.

(** A handler called without a response throws at [response.statusCode]. *)
Lemma handler_without_response (op : operation) (callback : list value -> M unit)
      (e b : value) (s : state) :
  handler_of op callback e None b s = Build_result [] s Threw.
Proof.
  destruct op; reflexivity.
Qed.

(** The three ways a run of an operation can start. *)
Lemma invoke_cases (op : operation) (callback : list value -> M unit) (s : state) :
  invoke op callback s = Build_result [EvRequest (login_options (self s))] s (Normal tt)
  \/ (exists rest,
        invoke op callback s
        = Build_result [EvRequest (login_options (self s))]
            {| self := self s; pending := rest |} Threw)
  \/ (exists lresp rest,
        invoke op callback s
        = prepend (EvRequest (login_options (self s)))
            (returns (continuation op callback
                        {| self := after_login (self s) lresp; pending := rest |}))).
Proof.
  destruct s as [j [|[e|lresp] rest]]; cbn [self].
  - left. rewrite invoke_continuation. apply login_no_reply.
  - right; left. exists rest. rewrite invoke_continuation. apply login_transport_error.
  - right; right. exists lresp, rest. apply invoke_run.
Qed.

Lemma after_login_configuration (j : JiraApi) (lresp : Response) :
  protocol (after_login j lresp) = protocol j
  /\ host (after_login j lresp) = host j
  /\ port (after_login j lresp) = port j
  /\ username (after_login j lresp) = username j
  /\ password (after_login j lresp) = password j
  /\ apiVersion (after_login j lresp) = apiVersion j.
Proof.
  unfold after_login. destruct (statusCode lresp =? 200); repeat split.
Qed.

End Runs.

Section Everywhere.
Context `{Runtime}.

(** The two handlers that fall through call back twice at most. *)
Lemma handler_at_most_twice (op : operation) (e : value) (response : option Response)
      (b : value) (s : state) :
  (List.length (callbacks (trace (handler_of op user_callback e response b s))) <= 2)%nat.
Proof.
  destruct (falls_through op) eqn:Hop.
  - destruct response as [resp|];
      [|rewrite handler_without_response; simpl; lia].
    destruct op; try discriminate; cbn [handler_of]; autounfold with handlers;
      cbn [get_statusCode]; rewrite bind_ret.
    + unfold get_prop.
      destruct (statusCode resp =? 200); destruct (statusCode resp =? 404);
        destruct b as [| | | | | |props]; try destruct (lookup "transitions" props);
        cbn -[Z_to_string String.append]; lia.
    + destruct (statusCode resp =? 200); destruct (statusCode resp =? 500);
        cbn -[Z_to_string String.append]; lia.
  - pose proof (handler_at_most_once op e response b Hop s). lia.
Qed.

(** An operation with both replies at hand uses them up and leaves the
    object as [login] left it. *)
Lemma invoke_final (op : operation) (j : JiraApi) (lresp resp : Response)
      (rest : list reply) :
  final (invoke op user_callback
           {| self := j; pending := Reply lresp :: Reply resp :: rest |})
  = {| self := after_login j lresp; pending := rest |}.
Proof.
  rewrite invoke_run.
  destruct (continuation_handler op user_callback
              {| self := after_login j lresp; pending := Reply resp :: rest |})
    as (o & -> & _).
  rewrite final_prepend, final_returns, final_prepend, deliver_reply, final_returns.
  apply handler_steady.
Qed.

(** X1. When the login request fails in the transport, so that the handler
    gets no response, every operation stops there: the handler throws on
    reading [response.statusCode], the operation's own request is never
    issued and the callback is never invoked. *)
Theorem transport_error_at_login (op : operation) (callback : list value -> M unit)
        (j : JiraApi) (e : value) (rest : list reply) :
  invoke op callback {| self := j; pending := TransportError e :: rest |}
  = Build_result [EvRequest (login_options j)] {| self := j; pending := rest |} Threw.
Proof.
  rewrite invoke_continuation. apply login_transport_error.
Qed.

(** X2. When the operation's own request fails in the transport, whatever
    the login response was, every operation has issued its two requests,
    throws in its handler and never invokes the callback: the caller gets
    neither an error nor a result. *)
Theorem transport_error_at_operation (op : operation) (j : JiraApi) (lresp : Response)
        (e : value) (rest : list reply) :
  let r := invoke op user_callback
             {| self := j; pending := Reply lresp :: TransportError e :: rest |} in
  callbacks (trace r) = []
  /\ outcome r = Threw
  /\ List.length (requests (trace r)) = 2%nat.
Proof.
  cbv zeta. rewrite invoke_run.
  destruct (continuation_handler op user_callback
              {| self := after_login j lresp; pending := TransportError e :: rest |})
    as (o & -> & _).
  unfold deliver, function. cbn [pending self].
  rewrite handler_without_response. repeat split.
Qed.

(** X3. When the login response has status 200 and no set-cookie header,
    the stored cookies are emptied: every operation then sends an empty
    [Cookie] header, whatever cookies an earlier login had stored. *)
Theorem login_without_set_cookie_clears_cookies (op : operation)
        (callback : list value -> M unit) (j : JiraApi) (resp : Response)
        (rest : list reply) :
  statusCode resp = 200 ->
  set_cookie resp = None ->
  exists o r,
    invoke op callback {| self := j; pending := Reply resp :: rest |}
    = prepend (EvRequest (login_options j)) (prepend (EvRequest o) r)
    /\ headers o = Some [("Cookie", "")].
Proof.
  intros Hs Hcs.
  rewrite invoke_run. unfold after_login. rewrite Hs, Hcs. cbn [Z.eqb Pos.eqb].
  destruct (continuation_run op callback
              {| self := with_cookies [] j; pending := rest |}) as (o & h & Hrun & Hh).
  exists o, (returns (deliver h {| self := with_cookies [] j; pending := rest |})).
  rewrite Hrun, returns_prepend. split; [reflexivity | exact Hh].
Qed.

(** X4. No operation changes the configuration of the client: whatever
    replies arrive, the protocol, host, port, username, password and API
    version of the object after the run are those before it. *)
Theorem operations_keep_configuration (op : operation) (s : state) :
  let j' := self (final (invoke op user_callback s)) in
  protocol j' = protocol (self s)
  /\ host j' = host (self s)
  /\ port j' = port (self s)
  /\ username j' = username (self s)
  /\ password j' = password (self s)
  /\ apiVersion j' = apiVersion (self s).
Proof.
  cbv zeta.
  destruct (invoke_cases op user_callback s) as [-> | [(rest & ->) | (lresp & rest & ->)]];
    cbn [final self]; try (repeat split; reflexivity).
  destruct (continuation_handler op user_callback
              {| self := after_login (self s) lresp; pending := rest |}) as (o & -> & _).
  rewrite final_prepend, final_returns, final_prepend.
  rewrite deliver_self by (intros; apply handler_steady).
  apply after_login_configuration.
Qed.

(** X5. Whatever replies arrive, an operation invokes the callback at most
    once, except [listTransitions] and [listProjects], which invoke it at
    most twice. *)
Theorem callback_count_bounded (op : operation) (s : state) :
  (List.length (callbacks (trace (invoke op user_callback s)))
   <= if falls_through op then 2 else 1)%nat.
Proof.
  assert (Hle : (1 <= if falls_through op then 2 else 1)%nat)
    by (destruct (falls_through op); lia).
  destruct (invoke_cases op user_callback s) as [-> | [(rest & ->) | (lresp & rest & ->)]];
    cbn [trace callbacks List.length]; try lia.
  destruct (continuation_handler op user_callback
              {| self := after_login (self s) lresp; pending := rest |}) as (o & -> & _).
  rewrite trace_prepend, trace_returns, trace_prepend. cbn [callbacks].
  destruct (deliver_trace (handler_of op user_callback)
              {| self := after_login (self s) lresp; pending := rest |})
    as [-> | (e & response & b & s' & ->)]; [simpl; lia|].
  destruct (falls_through op) eqn:Hop.
  - apply handler_at_most_twice.
  - apply handler_at_most_once. exact Hop.
Qed.

(** X7. No operation ever hands the callback both an error and a result:
    whatever replies arrive, each invocation has a single argument, or
    [null] followed by the result. *)
Theorem never_error_and_result (op : operation) (s : state) :
  Forall error_or_result (callbacks (trace (invoke op user_callback s))).
Proof.
  destruct (invoke_cases op user_callback s) as [-> | [(rest & ->) | (lresp & rest & ->)]];
    cbn [trace callbacks]; try constructor.
  destruct (continuation_handler op user_callback
              {| self := after_login (self s) lresp; pending := rest |}) as (o & -> & _).
  rewrite trace_prepend, trace_returns, trace_prepend. cbn [callbacks].
  destruct (deliver_trace (handler_of op user_callback)
              {| self := after_login (self s) lresp; pending := rest |})
    as [-> | (e & response & b & s' & ->)]; [constructor|].
  apply callbacks_well_formed, handler_well_formed.
Qed.

(** X8. No operation retries: whatever replies arrive, a run issues the
    login request first and at most one request after it. *)
Theorem at_most_two_requests (op : operation) (s : state) :
  exists rs,
    requests (trace (invoke op user_callback s)) = login_options (self s) :: rs
    /\ (List.length rs <= 1)%nat.
Proof.
  destruct (invoke_cases op user_callback s) as [-> | [(rest & ->) | (lresp & rest & ->)]];
    cbn [trace requests]; try (exists []; split; [reflexivity | simpl; lia]).
  destruct (continuation_handler op user_callback
              {| self := after_login (self s) lresp; pending := rest |}) as (o & -> & _).
  rewrite trace_prepend, trace_returns, trace_prepend. cbn [requests].
  exists [o]. split; [|simpl; lia]. do 2 f_equal.
  destruct (deliver_trace (handler_of op user_callback)
              {| self := after_login (self s) lresp; pending := rest |})
    as [-> | (e & response & b & s' & ->)]; [reflexivity|].
  apply requests_none, handler_no_request.
Qed.

(** X9. Cookies outlive a failed login: when one operation has logged in
    with status 200 and a set-cookie header, and the login of the next
    operation fails, that operation's request still carries the cookies of
    the earlier login. *)
Theorem stale_cookies_after_failed_login (op1 op2 : operation)
        (callback : list value -> M unit) (j : JiraApi) (l1 r1 l2 : Response)
        (rest : list reply) (cs : list string) :
  statusCode l1 = 200 ->
  set_cookie l1 = Some cs ->
  statusCode l2 <> 200 ->
  exists o r,
    invoke op2 callback
      (final (invoke op1 user_callback
                {| self := j; pending := Reply l1 :: Reply r1 :: Reply l2 :: rest |}))
    = prepend (EvRequest (login_options j)) (prepend (EvRequest o) r)
    /\ headers o = Some [("Cookie", join ";" cs)].
Proof.
  intros Hs1 Hcs Hs2.
  rewrite invoke_final. unfold after_login at 1. rewrite Hs1, Hcs. cbn [Z.eqb Pos.eqb].
  rewrite invoke_run. unfold after_login. apply Z.eqb_neq in Hs2. rewrite Hs2.
  destruct (continuation_run op2 callback
              {| self := with_cookies cs j; pending := rest |}) as (o & h & Hrun & Hh).
  exists o, (returns (deliver h {| self := with_cookies cs j; pending := rest |})).
  rewrite Hrun, returns_prepend. split; [reflexivity | exact Hh].
Qed.

Lemma handler_confirms (op : operation) (resp : Response) (b : value) (s : state) :
  always_confirms op = true ->
  exists args,
    returns (handler_of op user_callback VNull (Some resp) b s)
    = Build_result [EvCallback args] s (Normal tt).
Proof.
  destruct op; try discriminate; intros _; cbn [handler_of]; autounfold with handlers;
    cbn [get_statusCode]; rewrite bind_ret;
    repeat match goal with
           | |- context [statusCode resp =? ?k] => destruct (statusCode resp =? k)
           end;
    unfold bind; cbn -[Z_to_string String.append]; eexists; reflexivity.
Qed.

(** X6. [issueLink], [createVersion], [searchJira], [getUsersIssues],
    [addNewIssue], [deleteIssue], [updateIssue], [transitionIssue],
    [addWorklog] and [listIssueTypes] answer every pair of HTTP responses,
    the login's and their own, by invoking the callback exactly once, and
    their handler completes without an exception. *)
Theorem callback_exactly_once (op : operation) (j : JiraApi) (lresp resp : Response)
        (rest : list reply) :
  always_confirms op = true ->
  let r := invoke op user_callback
             {| self := j; pending := Reply lresp :: Reply resp :: rest |} in
  (exists args, callbacks (trace r) = [args]) /\ outcome r = Normal tt.
Proof.
  intros Hop. cbv zeta. rewrite invoke_run.
  destruct (continuation_handler op user_callback
              {| self := after_login j lresp; pending := Reply resp :: rest |})
    as (o & -> & _).
  rewrite deliver_reply.
  destruct (handler_confirms op resp (resp_body resp)
              {| self := after_login j lresp; pending := rest |} Hop) as (args & ->).
  split; [exists args|]; reflexivity.
Qed.

End Everywhere.

(** ** Status tables of the remaining operations *)

(** Brings the handler of an operation to its reply. *)
Ltac to_handler :=
  unfold both_replies; rewrite login_run; unfold function; autounfold with closures;
  rewrite bind_this, request_run, deliver_reply; autounfold with handlers;
  cbn [get_statusCode get_body statusCode resp_body]; rewrite bind_ret.

(** Decides the tests on a status code that the hypotheses settle. *)
Ltac settle :=
  repeat match goal with
         | Hne : ?x <> ?k |- context [?x =? ?k] =>
             rewrite (proj2 (Z.eqb_neq x k) Hne)
         end.

(** Passes the tests on a status code that is known. *)
Ltac past_tests := cbn [Z.eqb Pos.eqb negb If_]; rewrite ?bind_ret.

Ltac finish := unfold bind; cbn -[Z_to_string String.append]; try reflexivity.

Section Tables.
Context `{Runtime}.
Variables (j : JiraApi) (lresp : Response) (cs : option (list string))
          (rest : list reply).

(** X10. [findIssue]: 404 gives ["Invalid issue number."]; 200 gives
    [(null, JSON.parse(body))], and when the body does not parse the
    handler throws and the callback is never invoked; any other status
    gives the status code followed by
    [": Unable to connect to JIRA during findIssueStatus."]. *)
Theorem findIssue_outcome (issueNumber : string) (b : value) :
  callbacks (trace (findIssue issueNumber user_callback
                      (both_replies j lresp (Build_Response 404 cs b) rest)))
  = [[VStr "Invalid issue number."]]
  /\ (forall parsed, JSON_parse b = Some parsed ->
        callbacks (trace (findIssue issueNumber user_callback
                            (both_replies j lresp (Build_Response 200 cs b) rest)))
        = [[VNull; parsed]])
  /\ (JSON_parse b = None ->
        callbacks (trace (findIssue issueNumber user_callback
                            (both_replies j lresp (Build_Response 200 cs b) rest))) = []
        /\ outcome (findIssue issueNumber user_callback
                      (both_replies j lresp (Build_Response 200 cs b) rest)) = Threw)
  /\ (forall status, status <> 404 -> status <> 200 ->
        callbacks (trace (findIssue issueNumber user_callback
                            (both_replies j lresp (Build_Response status cs b) rest)))
        = [[VStr (Z_to_string status
                  ++ ": Unable to connect to JIRA during findIssueStatus.")]]).
Proof.
  unfold findIssue. split; [|split; [|split]].
  - to_handler. finish.
  - intros parsed Hp. to_handler. unfold parse. rewrite Hp. finish.
  - intros Hp. to_handler. unfold parse. rewrite Hp. split; finish.
  - intros status H404 H200. to_handler. settle. finish.
Qed.

(** X11. [getUnresolvedIssueCount]: on 200 the result is the
    [issuesUnresolvedCount] property of the parsed body, [undefined] when
    the parsed object has no such key; when the body parses to [null] the
    handler throws and the callback is never invoked; 404 gives
    ["Invalid version."]. *)
Theorem getUnresolvedIssueCount_outcome (version : string) (b : value) :
  callbacks (trace (getUnresolvedIssueCount version user_callback
                      (both_replies j lresp (Build_Response 404 cs b) rest)))
  = [[VStr "Invalid version."]]
  /\ (forall props, JSON_parse b = Some (VObj props) ->
        callbacks (trace (getUnresolvedIssueCount version user_callback
                            (both_replies j lresp (Build_Response 200 cs b) rest)))
        = [[VNull; match lookup "issuesUnresolvedCount" props with
                   | Some count => count
                   | None => VUndefined
                   end]])
  /\ (JSON_parse b = Some VNull ->
        callbacks (trace (getUnresolvedIssueCount version user_callback
                            (both_replies j lresp (Build_Response 200 cs b) rest))) = []
        /\ outcome (getUnresolvedIssueCount version user_callback
                      (both_replies j lresp (Build_Response 200 cs b) rest)) = Threw).
Proof.
  unfold getUnresolvedIssueCount. split; [|split].
  - to_handler. finish.
  - intros props Hp. to_handler. past_tests. unfold parse. rewrite Hp, bind_ret.
    unfold get_prop. destruct (lookup "issuesUnresolvedCount" props); finish.
  - intros Hp. to_handler. unfold parse. rewrite Hp. split; finish.
Qed.

(** X12. [getProject] and [getVersions]: 404 gives ["Invalid project."];
    200 gives [(null, JSON.parse(body))]; any other status gives the status
    code followed by the operation's own connection text. *)
Theorem getProject_getVersions_outcome (project : string) (b : value) :
  (callbacks (trace (getProject project user_callback
                       (both_replies j lresp (Build_Response 404 cs b) rest)))
   = [[VStr "Invalid project."]]
   /\ callbacks (trace (getVersions project user_callback
                          (both_replies j lresp (Build_Response 404 cs b) rest)))
      = [[VStr "Invalid project."]])
  /\ (forall parsed, JSON_parse b = Some parsed ->
        callbacks (trace (getProject project user_callback
                            (both_replies j lresp (Build_Response 200 cs b) rest)))
        = [[VNull; parsed]]
        /\ callbacks (trace (getVersions project user_callback
                               (both_replies j lresp (Build_Response 200 cs b) rest)))
           = [[VNull; parsed]])
  /\ (forall status, status <> 404 -> status <> 200 ->
        callbacks (trace (getProject project user_callback
                            (both_replies j lresp (Build_Response status cs b) rest)))
        = [[VStr (Z_to_string status ++ ": Unable to connect to JIRA during getProject.")]]
        /\ callbacks (trace (getVersions project user_callback
                               (both_replies j lresp (Build_Response status cs b) rest)))
           = [[VStr (Z_to_string status
                     ++ ": Unable to connect to JIRA during getVersions.")]]).
Proof.
  unfold getProject, getVersions. split; [|split].
  - split; to_handler; finish.
  - intros parsed Hp. split; to_handler; unfold parse; rewrite Hp; finish.
  - intros status H404 H200. split; to_handler; settle; finish.
Qed.

(** X13. [getLastSprintForRapidView] on 200: a body with a [sprints] array
    gives [(null, last)], the last element of the array, [undefined] when
    the array is empty; a [null] body ends the handler without any callback;
    a body without [sprints] makes it throw, again without a callback. 404
    gives ["Invalid URL"]. *)
Theorem getLastSprintForRapidView_outcome (rapidViewId : string) (b : value) :
  callbacks (trace (getLastSprintForRapidView rapidViewId user_callback
                      (both_replies j lresp (Build_Response 404 cs b) rest)))
  = [[VStr "Invalid URL"]]
  /\ (forall props sprints,
        lookup "sprints" props = Some (VArr sprints) ->
        callbacks (trace (getLastSprintForRapidView rapidViewId user_callback
                            (both_replies j lresp (Build_Response 200 cs (VObj props)) rest)))
        = [[VNull; last sprints VUndefined]])
  /\ (callbacks (trace (getLastSprintForRapidView rapidViewId user_callback
                          (both_replies j lresp (Build_Response 200 cs VNull) rest))) = []
      /\ outcome (getLastSprintForRapidView rapidViewId user_callback
                    (both_replies j lresp (Build_Response 200 cs VNull) rest)) = Normal tt)
  /\ (forall props,
        lookup "sprints" props = None ->
        callbacks (trace (getLastSprintForRapidView rapidViewId user_callback
                            (both_replies j lresp (Build_Response 200 cs (VObj props)) rest)))
        = []
        /\ outcome (getLastSprintForRapidView rapidViewId user_callback
                      (both_replies j lresp (Build_Response 200 cs (VObj props)) rest))
           = Threw).
Proof.
  unfold getLastSprintForRapidView. split; [|split; [|split]].
  - to_handler. finish.
  - intros props sprints Hl. to_handler. past_tests.
    unfold is_null, negb, If_, get_prop. rewrite Hl. finish.
  - split; to_handler; finish.
  - intros props Hl. split; to_handler; past_tests;
      unfold is_null, negb, If_, get_prop; rewrite Hl; finish.
Qed.

(** A view without a string for a name stops the loop with a TypeError. *)
Lemma findRapidView_loop_unnamed (v : value) (post : list value) (projectName : string)
      (callback : list value -> M unit) (s : state) :
  view_name v = None ->
  findRapidView_loop (v :: post) projectName callback s = Build_result [] s Threw.
Proof.
  intros Hv. unfold view_name in Hv.
  destruct v as [| | | | | |props]; try reflexivity.
  cbn [findRapidView_loop get_prop].
  destruct (lookup "name" props) as [[| | | |name| |]|]; try reflexivity.
  discriminate.
Qed.

(** X14. [findRapidView] apart from a match: 404 gives ["Invalid URL"] and
    any other status than 200 the status code followed by
    [": Unable to connect to JIRA during rapidView search."]; on 200 a
    [null] body ends the handler without any callback; and a view without a
    string for a name, reached before any view matches, makes the handler
    throw without a callback, whatever views follow it. *)
Theorem findRapidView_edges (projectName : string) :
  (forall b,
     callbacks (trace (findRapidView projectName user_callback
                         (both_replies j lresp (Build_Response 404 cs b) rest)))
     = [[VStr "Invalid URL"]])
  /\ (forall status b, status <> 404 -> status <> 200 ->
        callbacks (trace (findRapidView projectName user_callback
                            (both_replies j lresp (Build_Response status cs b) rest)))
        = [[VStr (Z_to_string status
                  ++ ": Unable to connect to JIRA during rapidView search.")]])
  /\ (callbacks (trace (findRapidView projectName user_callback
                          (both_replies j lresp (Build_Response 200 cs VNull) rest))) = []
      /\ outcome (findRapidView projectName user_callback
                    (both_replies j lresp (Build_Response 200 cs VNull) rest)) = Normal tt)
  /\ (forall props (pre : list value) (v : value) (post : list value),
        lookup "views" props = Some (VArr (pre ++ v :: post)%list) ->
        (forall u, In u pre ->
           exists m, view_name u = Some m /\ toLowerCase m <> toLowerCase projectName) ->
        view_name v = None ->
        callbacks (trace (findRapidView projectName user_callback
                            (both_replies j lresp (Build_Response 200 cs (VObj props)) rest)))
        = []
        /\ outcome (findRapidView projectName user_callback
                      (both_replies j lresp (Build_Response 200 cs (VObj props)) rest))
           = Threw).
Proof.
  unfold findRapidView. split; [|split; [|split]].
  - intros b. to_handler. finish.
  - intros status b H404 H200. to_handler. settle. finish.
  - split; to_handler; finish.
  - intros props pre v post Hl Hpre Hv.
    split; to_handler; past_tests; unfold is_null, negb, If_, get_prop; rewrite Hl, bind_ret;
      unfold indexed_elements; rewrite bind_ret;
      rewrite findRapidView_loop_skip by exact Hpre;
      rewrite (findRapidView_loop_unnamed v post projectName _ _ Hv); reflexivity.
Qed.

(** X15. [addIssueToSprint] sends a PUT whose body is
    [{issueKeys: [issueId]}]; 404 gives ["Invalid URL"], and any status other
    than 404 and 204 gives the status code followed by
    [": Unable to connect to JIRA to add to sprint."]. *)
Theorem addIssueToSprint_request_and_errors (issueId : value) (sprintId : string) :
  (forall callback,
     exists o r,
       addIssueToSprint issueId sprintId callback
         {| self := j; pending := Reply lresp :: rest |}
       = prepend (EvRequest (login_options j)) (prepend (EvRequest o) r)
       /\ method o = "PUT"
       /\ body o = Some (VObj [("issueKeys", VArr [issueId])]))
  /\ (forall b,
        callbacks (trace (addIssueToSprint issueId sprintId user_callback
                            (both_replies j lresp (Build_Response 404 cs b) rest)))
        = [[VStr "Invalid URL"]])
  /\ (forall status b, status <> 404 -> status <> 204 ->
        callbacks (trace (addIssueToSprint issueId sprintId user_callback
                            (both_replies j lresp (Build_Response status cs b) rest)))
        = [[VStr (Z_to_string status ++ ": Unable to connect to JIRA to add to sprint.")]]).
Proof.
  unfold addIssueToSprint. split; [|split].
  - intros callback. rewrite login_run. unfold function. autounfold with closures.
    rewrite bind_this, request_run, !returns_prepend.
    do 2 eexists. split; [reflexivity | split; reflexivity].
  - intros b. to_handler. finish.
  - intros status b H404 H204. to_handler. settle. finish.
Qed.

(** X16. [issueLink] posts the link object as it was given; 404 gives
    ["Invalid project."], and any status other than 404 and 200 gives the
    status code followed by [": Unable to connect to JIRA during issueLink."]. *)
Theorem issueLink_request_and_errors (link : value) :
  (forall callback,
     exists o r,
       issueLink link callback {| self := j; pending := Reply lresp :: rest |}
       = prepend (EvRequest (login_options j)) (prepend (EvRequest o) r)
       /\ method o = "POST"
       /\ body o = Some link)
  /\ (forall b,
        callbacks (trace (issueLink link user_callback
                            (both_replies j lresp (Build_Response 404 cs b) rest)))
        = [[VStr "Invalid project."]])
  /\ (forall status b, status <> 404 -> status <> 200 ->
        callbacks (trace (issueLink link user_callback
                            (both_replies j lresp (Build_Response status cs b) rest)))
        = [[VStr (Z_to_string status ++ ": Unable to connect to JIRA during issueLink.")]]).
Proof.
  unfold issueLink. split; [|split].
  - intros callback. rewrite login_run. unfold function. autounfold with closures.
    rewrite bind_this, request_run, !returns_prepend.
    do 2 eexists. split; [reflexivity | split; reflexivity].
  - intros b. to_handler. finish.
  - intros status b H404 H200. to_handler. settle. finish.
Qed.

(** X17. [searchJira]: 400 gives ["Problem with the JQL query"]; 200 gives
    [(null, body)], the body as the transport parsed it; any other status
    gives the status code followed by
    [": Unable to connect to JIRA during search."]. *)
Theorem searchJira_outcome (searchString : string) (fields b : value) :
  callbacks (trace (searchJira searchString fields user_callback
                      (both_replies j lresp (Build_Response 400 cs b) rest)))
  = [[VStr "Problem with the JQL query"]]
  /\ callbacks (trace (searchJira searchString fields user_callback
                         (both_replies j lresp (Build_Response 200 cs b) rest)))
     = [[VNull; b]]
  /\ (forall status, status <> 400 -> status <> 200 ->
        callbacks (trace (searchJira searchString fields user_callback
                            (both_replies j lresp (Build_Response status cs b) rest)))
        = [[VStr (Z_to_string status ++ ": Unable to connect to JIRA during search.")]]).
Proof.
  unfold searchJira. split; [|split].
  - to_handler. finish.
  - to_handler. finish.
  - intros status H400 H200. to_handler. settle. finish.
Qed.

(** X18. [getUsersIssues] end to end: its request is a POST whose body has
    the generated JQL string, [startAt] 0 and the four default fields; the
    status clause is added exactly when [open] is truthy, so [undefined],
    [null], [false], [0] and the empty string leave it out. *)
Theorem getUsersIssues_request (user : string) (open : value)
        (callback : list value -> M unit) :
  exists o r,
    getUsersIssues user open callback {| self := j; pending := Reply lresp :: rest |}
    = prepend (EvRequest (login_options j)) (prepend (EvRequest o) r)
    /\ method o = "POST"
    /\ body o
       = Some (VObj [("jql",
                      VStr (if truthy open
                            then "assignee = " ++ user ++ " AND status in (Open, "
                                 ++ dquote ++ "In Progress" ++ dquote ++ ", Reopened)"
                            else "assignee = " ++ user));
                     ("startAt", VNum 0);
                     ("fields", VArr [VStr "summary"; VStr "status";
                                      VStr "assignee"; VStr "description"])]).
Proof.
  unfold getUsersIssues, searchJira. cbn [loosely_null].
  rewrite login_run. unfold function. autounfold with closures.
  rewrite bind_this, request_run, !returns_prepend.
  do 2 eexists. split; [reflexivity | split; [reflexivity|]].
  cbn [body]. destruct (truthy open); [rewrite append_assoc|]; reflexivity.
Qed.

(** X19. [addNewIssue]: 400 hands the response body itself to the callback
    as the error; 200 and 201 both give [(null, body)]; any other status
    gives the status code followed by
    [": Unable to connect to JIRA during search."]. *)
Theorem addNewIssue_outcome (issue b : value) :
  callbacks (trace (addNewIssue issue user_callback
                      (both_replies j lresp (Build_Response 400 cs b) rest)))
  = [[b]]
  /\ callbacks (trace (addNewIssue issue user_callback
                         (both_replies j lresp (Build_Response 200 cs b) rest)))
     = [[VNull; b]]
  /\ callbacks (trace (addNewIssue issue user_callback
                         (both_replies j lresp (Build_Response 201 cs b) rest)))
     = [[VNull; b]]
  /\ (forall status, status <> 400 -> status <> 200 -> status <> 201 ->
        callbacks (trace (addNewIssue issue user_callback
                            (both_replies j lresp (Build_Response status cs b) rest)))
        = [[VStr (Z_to_string status ++ ": Unable to connect to JIRA during search.")]]).
Proof.
  unfold addNewIssue. split; [|split; [|split]].
  - to_handler. finish.
  - to_handler. finish.
  - to_handler. finish.
  - intros status H400 H200 H201. to_handler. settle. finish.
Qed.

(** X20. [updateIssue] takes 200 alone for success and [transitionIssue]
    204 alone: each gives [(null, "Success")] there, and on any other
    status, 204 for [updateIssue] and 200 for [transitionIssue] included,
    the status code followed by [": Error while updating"]. *)
Theorem updateIssue_transitionIssue_outcome (issueNum : string) (change b : value) :
  callbacks (trace (updateIssue issueNum change user_callback
                      (both_replies j lresp (Build_Response 200 cs b) rest)))
  = [[VNull; VStr "Success"]]
  /\ callbacks (trace (transitionIssue issueNum change user_callback
                         (both_replies j lresp (Build_Response 204 cs b) rest)))
     = [[VNull; VStr "Success"]]
  /\ (forall status, status <> 200 ->
        callbacks (trace (updateIssue issueNum change user_callback
                            (both_replies j lresp (Build_Response status cs b) rest)))
        = [[VStr (Z_to_string status ++ ": Error while updating")]])
  /\ (forall status, status <> 204 ->
        callbacks (trace (transitionIssue issueNum change user_callback
                            (both_replies j lresp (Build_Response status cs b) rest)))
        = [[VStr (Z_to_string status ++ ": Error while updating")]]).
Proof.
  unfold updateIssue, transitionIssue. split; [|split; [|split]].
  - to_handler. finish.
  - to_handler. finish.
  - intros status H200. to_handler. settle. finish.
  - intros status H204. to_handler. settle. finish.
Qed.

(** X21. [listTransitions]: on 200 with an object for a body the result is
    its [transitions] property, [undefined] when the key is missing; on 200
    with no body the handler throws and the callback is never invoked; on
    any status other than 200 and 404 the callback is invoked once, with the
    status code followed by [": Error while updating"]. *)
Theorem listTransitions_outcome (issueId : string) :
  (forall props,
     callbacks (trace (listTransitions issueId user_callback
                         (both_replies j lresp (Build_Response 200 cs (VObj props)) rest)))
     = [[VNull; match lookup "transitions" props with
                | Some transitions => transitions
                | None => VUndefined
                end]])
  /\ (callbacks (trace (listTransitions issueId user_callback
                          (both_replies j lresp (Build_Response 200 cs VUndefined) rest)))
      = []
      /\ outcome (listTransitions issueId user_callback
                    (both_replies j lresp (Build_Response 200 cs VUndefined) rest))
         = Threw)
  /\ (forall status b, status <> 200 -> status <> 404 ->
        callbacks (trace (listTransitions issueId user_callback
                            (both_replies j lresp (Build_Response status cs b) rest)))
        = [[VStr (Z_to_string status ++ ": Error while updating")]]).
Proof.
  unfold listTransitions. split; [|split].
  - intros props. to_handler. cbn [Z.eqb Pos.eqb If_]. unfold get_prop.
    destruct (lookup "transitions" props); finish.
  - split; to_handler; finish.
  - intros status b H200 H404. to_handler. settle. finish.
Qed.

(** X22. [listProjects]: 200 gives [(null, body)]; any status other than
    200 and 500 invokes the callback once, with the status code followed by
    [": Error while updating"]. *)
Theorem listProjects_outcome (b : value) :
  callbacks (trace (listProjects user_callback
                      (both_replies j lresp (Build_Response 200 cs b) rest)))
  = [[VNull; b]]
  /\ (forall status, status <> 200 -> status <> 500 ->
        callbacks (trace (listProjects user_callback
                            (both_replies j lresp (Build_Response status cs b) rest)))
        = [[VStr (Z_to_string status ++ ": Error while updating")]]).
Proof.
  unfold listProjects. split.
  - to_handler. finish.
  - intros status H200 H500. to_handler. settle. finish.
Qed.

(** X23. [addWorklog]: 201 gives [(null, "Success")]; 400 gives
    ["Invalid Fields: "] followed by the body as [JSON.stringify] renders
    it; 403 gives ["Insufficient Permissions"]; any other status gives the
    status code followed by [": Error while updating"]. *)
Theorem addWorklog_outcome (issueId : string) (worklog b : value) :
  callbacks (trace (addWorklog issueId worklog user_callback
                      (both_replies j lresp (Build_Response 201 cs b) rest)))
  = [[VNull; VStr "Success"]]
  /\ callbacks (trace (addWorklog issueId worklog user_callback
                         (both_replies j lresp (Build_Response 400 cs b) rest)))
     = [[VStr ("Invalid Fields: " ++ JSON_stringify b)]]
  /\ callbacks (trace (addWorklog issueId worklog user_callback
                         (both_replies j lresp (Build_Response 403 cs b) rest)))
     = [[VStr "Insufficient Permissions"]]
  /\ (forall status, status <> 201 -> status <> 400 -> status <> 403 ->
        callbacks (trace (addWorklog issueId worklog user_callback
                            (both_replies j lresp (Build_Response status cs b) rest)))
        = [[VStr (Z_to_string status ++ ": Error while updating")]]).
Proof.
  unfold addWorklog. split; [|split; [|split]].
  - to_handler. finish.
  - to_handler. finish.
  - to_handler. finish.
  - intros status H201 H400 H403. to_handler. settle. finish.
Qed.

(** X24. [listIssueTypes]: 200 gives [(null, body)]; any other status gives
    the status code followed by [": Error while retreiving issue types"]. *)
Theorem listIssueTypes_outcome (b : value) :
  callbacks (trace (listIssueTypes user_callback
                      (both_replies j lresp (Build_Response 200 cs b) rest)))
  = [[VNull; b]]
  /\ (forall status, status <> 200 ->
        callbacks (trace (listIssueTypes user_callback
                            (both_replies j lresp (Build_Response status cs b) rest)))
        = [[VStr (Z_to_string status ++ ": Error while retreiving issue types")]]).
Proof.
  unfold listIssueTypes. split.
  - to_handler. finish.
  - intros status H200. to_handler. settle. finish.
Qed.

(** X25. The requests of [findIssue], [deleteIssue] and [updateIssue] for
    an issue have the same URI and the same headers. They differ in the
    method, GET, DELETE and PUT; in the [json] flag, which [findIssue] does
    not set and the other two do; and in the body, which only
    [updateIssue] has, the update object as given. The requests of
    [listTransitions] and [transitionIssue] likewise have the same URI and
    headers and both set [json]; the first is a GET without a body, the
    second a POST of the transition object. *)
Theorem issue_resource (issue : string) (update transition : value)
        (callback : list value -> M unit) :
  let s := {| self := j; pending := Reply lresp :: rest |} in
  exists o1 o2 o3 o4 o5 r1 r2 r3 r4 r5,
    findIssue issue callback s
    = prepend (EvRequest (login_options j)) (prepend (EvRequest o1) r1)
    /\ deleteIssue issue callback s
       = prepend (EvRequest (login_options j)) (prepend (EvRequest o2) r2)
    /\ updateIssue issue update callback s
       = prepend (EvRequest (login_options j)) (prepend (EvRequest o3) r3)
    /\ listTransitions issue callback s
       = prepend (EvRequest (login_options j)) (prepend (EvRequest o4) r4)
    /\ transitionIssue issue transition callback s
       = prepend (EvRequest (login_options j)) (prepend (EvRequest o5) r5)
    /\ uri o1 = uri o2 /\ uri o2 = uri o3 /\ uri o4 = uri o5
    /\ headers o1 = headers o2 /\ headers o2 = headers o3
    /\ headers o4 = headers o5
    /\ method o1 = "GET" /\ method o2 = "DELETE" /\ method o3 = "PUT"
    /\ method o4 = "GET" /\ method o5 = "POST"
    /\ json o1 = false /\ json o2 = true /\ json o3 = true
    /\ json o4 = true /\ json o5 = true
    /\ body o1 = None /\ body o2 = None /\ body o3 = Some update
    /\ body o4 = None /\ body o5 = Some transition.
Proof.
  cbv zeta.
  unfold findIssue, deleteIssue, updateIssue, listTransitions, transitionIssue.
  rewrite !login_run. unfold function. autounfold with closures.
  rewrite !bind_this, !request_run, !returns_prepend.
  do 10 eexists. repeat split.
Qed.

End Tables.

(** ** The further theorems at concrete inputs *)

Lemma login_without_set_cookie_clears_cookies_witness :
  statusCode (Sample.respond 200 None VUndefined) = 200
  /\ set_cookie (Sample.respond 200 None VUndefined) = None
  /\ exists o r,
       @invoke Sample.runtime (FindIssue "JRA-9") user_callback
         {| self := Inputs.logged_in;
            pending := [Reply (Sample.respond 200 None VUndefined)] |}
       = prepend (EvRequest (@login_options Sample.runtime Inputs.logged_in))
           (prepend (EvRequest o) r)
       /\ headers o = Some [("Cookie", "")].
Proof.
  split; [reflexivity|]. split; [reflexivity|].
  apply (@login_without_set_cookie_clears_cookies Sample.runtime (FindIssue "JRA-9")
           user_callback Inputs.logged_in (Sample.respond 200 None VUndefined) []);
    reflexivity.
Defined.

Lemma callback_exactly_once_witness :
  always_confirms (DeleteIssue "JRA-9") = true
  /\ (exists args,
        callbacks (trace (@invoke Sample.runtime (DeleteIssue "JRA-9") user_callback
                            {| self := Sample.jira;
                               pending := [Reply Inputs.ok;
                                           Reply (Sample.respond 502 None VUndefined)] |}))
        = [args])
  /\ outcome (@invoke Sample.runtime (DeleteIssue "JRA-9") user_callback
                {| self := Sample.jira;
                   pending := [Reply Inputs.ok;
                               Reply (Sample.respond 502 None VUndefined)] |})
     = Normal tt.
Proof.
  split; [reflexivity|].
  apply (@callback_exactly_once Sample.runtime (DeleteIssue "JRA-9") Sample.jira
           Inputs.ok (Sample.respond 502 None VUndefined) []).
  reflexivity.
Defined.

Lemma stale_cookies_after_failed_login_witness :
  statusCode Inputs.ok = 200
  /\ set_cookie Inputs.ok = Some Sample.session
  /\ statusCode (Sample.respond 401 None VUndefined) <> 200
  /\ exists o r,
       @invoke Sample.runtime (FindIssue "JRA-9") user_callback
         (final (@invoke Sample.runtime ListProjects user_callback
                   {| self := Sample.jira;
                      pending := [Reply Inputs.ok;
                                  Reply (Sample.respond 200 None (VArr []));
                                  Reply (Sample.respond 401 None VUndefined)] |}))
       = prepend (EvRequest (@login_options Sample.runtime Sample.jira))
           (prepend (EvRequest o) r)
       /\ headers o = Some [("Cookie", "JSESSIONID=6E3487971234567896704A9EB4AE501F")].
Proof.
  split; [reflexivity|]. split; [reflexivity|]. split; [discriminate|].
  apply (@stale_cookies_after_failed_login Sample.runtime ListProjects (FindIssue "JRA-9")
           user_callback Sample.jira Inputs.ok (Sample.respond 200 None (VArr []))
           (Sample.respond 401 None VUndefined) [] Sample.session);
    [reflexivity | reflexivity | discriminate].
Defined.

Lemma findIssue_outcome_witness :
  (@JSON_parse Sample.runtime (VStr "true") = Some (VBool true)
   /\ callbacks (trace (@findIssue Sample.runtime "JRA-9" user_callback
                          (both_replies Sample.jira Inputs.ok
                             (Build_Response 200 None (VStr "true")) [])))
      = [[VNull; VBool true]])
  /\ (@JSON_parse Sample.runtime (VStr "<html>") = None
      /\ outcome (@findIssue Sample.runtime "JRA-9" user_callback
                    (both_replies Sample.jira Inputs.ok
                       (Build_Response 200 None (VStr "<html>")) []))
         = Threw)
  /\ (500 <> 404 /\ 500 <> 200
      /\ callbacks (trace (@findIssue Sample.runtime "JRA-9" user_callback
                             (both_replies Sample.jira Inputs.ok
                                (Build_Response 500 None VUndefined) [])))
         = [[VStr "500: Unable to connect to JIRA during findIssueStatus."]]).
Proof.
  split; [|split].
  - split; [reflexivity|].
    apply (proj1 (proj2 (@findIssue_outcome Sample.runtime Sample.jira Inputs.ok None []
                           "JRA-9" (VStr "true")))).
    reflexivity.
  - split; [reflexivity|].
    apply (proj1 (proj2 (proj2 (@findIssue_outcome Sample.runtime Sample.jira Inputs.ok
                                  None [] "JRA-9" (VStr "<html>"))))).
    reflexivity.
  - split; [discriminate|]. split; [discriminate|].
    apply (proj2 (proj2 (proj2 (@findIssue_outcome Sample.runtime Sample.jira Inputs.ok
                                  None [] "JRA-9" VUndefined))));
      discriminate.
Defined.

Lemma getUnresolvedIssueCount_outcome_witness :
  (@JSON_parse Inputs.runtime (VStr Inputs.count_text)
   = Some (VObj [("issuesUnresolvedCount", VNum 23)])
   /\ callbacks (trace (@getUnresolvedIssueCount Inputs.runtime "10000" user_callback
                          (both_replies Sample.jira Inputs.ok
                             (Build_Response 200 None (VStr Inputs.count_text)) [])))
      = [[VNull; VNum 23]])
  /\ (@JSON_parse Inputs.runtime (VStr "null") = Some VNull
      /\ outcome (@getUnresolvedIssueCount Inputs.runtime "10000" user_callback
                    (both_replies Sample.jira Inputs.ok
                       (Build_Response 200 None (VStr "null")) []))
         = Threw).
Proof.
  split.
  - split; [reflexivity|].
    apply (proj1 (proj2 (@getUnresolvedIssueCount_outcome Inputs.runtime Sample.jira
                           Inputs.ok None [] "10000" (VStr Inputs.count_text)))
             [("issuesUnresolvedCount", VNum 23)]).
    reflexivity.
  - split; [reflexivity|].
    apply (proj2 (proj2 (@getUnresolvedIssueCount_outcome Inputs.runtime Sample.jira
                           Inputs.ok None [] "10000" (VStr "null")))).
    reflexivity.
Defined.

Lemma getProject_getVersions_outcome_witness :
  (@JSON_parse Sample.runtime (VStr "true") = Some (VBool true)
   /\ callbacks (trace (@getVersions Sample.runtime "PXA" user_callback
                          (both_replies Sample.jira Inputs.ok
                             (Build_Response 200 None (VStr "true")) [])))
      = [[VNull; VBool true]])
  /\ (503 <> 404 /\ 503 <> 200
      /\ callbacks (trace (@getProject Sample.runtime "PXA" user_callback
                             (both_replies Sample.jira Inputs.ok
                                (Build_Response 503 None VUndefined) [])))
         = [[VStr "503: Unable to connect to JIRA during getProject."]]).
Proof.
  split.
  - split; [reflexivity|].
    apply (proj1 (proj2 (@getProject_getVersions_outcome Sample.runtime Sample.jira
                           Inputs.ok None [] "PXA" (VStr "true")))).
    reflexivity.
  - split; [discriminate|]. split; [discriminate|].
    apply (proj2 (proj2 (@getProject_getVersions_outcome Sample.runtime Sample.jira
                           Inputs.ok None [] "PXA" VUndefined)));
      discriminate.
Defined.

Lemma getLastSprintForRapidView_outcome_witness :
  (lookup "sprints" [("sprints", VArr [VNum 1; VNum 2])] = Some (VArr [VNum 1; VNum 2])
   /\ callbacks (trace (@getLastSprintForRapidView Sample.runtime "4" user_callback
                          (both_replies Sample.jira Inputs.ok
                             (Build_Response 200 None
                                (VObj [("sprints", VArr [VNum 1; VNum 2])])) [])))
      = [[VNull; VNum 2]])
  /\ (lookup "sprints" [("sprints", VArr [])] = Some (VArr [])
      /\ callbacks (trace (@getLastSprintForRapidView Sample.runtime "4" user_callback
                             (both_replies Sample.jira Inputs.ok
                                (Build_Response 200 None (VObj [("sprints", VArr [])]))
                                [])))
         = [[VNull; VUndefined]])
  /\ (lookup "sprints" (@nil (string * value)) = None
      /\ outcome (@getLastSprintForRapidView Sample.runtime "4" user_callback
                    (both_replies Sample.jira Inputs.ok
                       (Build_Response 200 None (VObj [])) []))
         = Threw).
Proof.
  split; [|split].
  - split; [reflexivity|].
    apply (proj1 (proj2 (@getLastSprintForRapidView_outcome Sample.runtime Sample.jira
                           Inputs.ok None [] "4" VUndefined))
             [("sprints", VArr [VNum 1; VNum 2])] [VNum 1; VNum 2]).
    reflexivity.
  - split; [reflexivity|].
    apply (proj1 (proj2 (@getLastSprintForRapidView_outcome Sample.runtime Sample.jira
                           Inputs.ok None [] "4" VUndefined))
             [("sprints", VArr [])] []).
    reflexivity.
  - split; [reflexivity|].
    apply (proj2 (proj2 (proj2 (@getLastSprintForRapidView_outcome Sample.runtime
                                  Sample.jira Inputs.ok None [] "4" VUndefined)))
             []).
    reflexivity.
Defined.

Lemma findRapidView_edges_witness :
  (500 <> 404 /\ 500 <> 200
   /\ callbacks (trace (@findRapidView Sample.runtime "Alpha" user_callback
                          (both_replies Sample.jira Inputs.ok
                             (Build_Response 500 None VUndefined) [])))
      = [[VStr "500: Unable to connect to JIRA during rapidView search."]])
  /\ (view_name Inputs.unnamed = None
      /\ callbacks (trace (@findRapidView Sample.runtime "Alpha" user_callback
                             (both_replies Sample.jira Inputs.ok
                                (Build_Response 200 None
                                   (VObj [("views", VArr [Sample.beta; Inputs.unnamed;
                                                          Sample.alpha])])) [])))
         = []
      /\ outcome (@findRapidView Sample.runtime "Alpha" user_callback
                    (both_replies Sample.jira Inputs.ok
                       (Build_Response 200 None
                          (VObj [("views", VArr [Sample.beta; Inputs.unnamed;
                                                 Sample.alpha])])) []))
         = Threw).
Proof.
  split.
  - split; [discriminate|]. split; [discriminate|].
    apply (proj1 (proj2 (@findRapidView_edges Sample.runtime Sample.jira Inputs.ok None []
                           "Alpha")));
      discriminate.
  - split; [reflexivity|].
    apply (proj2 (proj2 (proj2 (@findRapidView_edges Sample.runtime Sample.jira Inputs.ok
                                  None [] "Alpha")))
             [("views", VArr [Sample.beta; Inputs.unnamed; Sample.alpha])]
             [Sample.beta] Inputs.unnamed [Sample.alpha]).
    + reflexivity.
    + intros u [<-|[]]. exists "Beta". split; [reflexivity | discriminate].
    + reflexivity.
Defined.

Lemma addIssueToSprint_request_and_errors_witness :
  500 <> 404 /\ 500 <> 204
  /\ callbacks (trace (@addIssueToSprint Sample.runtime (VStr "JRA-9") "7" user_callback
                         (both_replies Sample.jira Inputs.ok
                            (Build_Response 500 None VUndefined) [])))
     = [[VStr "500: Unable to connect to JIRA to add to sprint."]].
Proof.
  split; [discriminate|]. split; [discriminate|].
  apply (proj2 (proj2 (@addIssueToSprint_request_and_errors Sample.runtime Sample.jira
                         Inputs.ok None [] (VStr "JRA-9") "7")));
    discriminate.
Defined.

Lemma issueLink_request_and_errors_witness :
  401 <> 404 /\ 401 <> 200
  /\ callbacks (trace (@issueLink Sample.runtime (VObj [("linkType", VStr "Duplicate")])
                         user_callback
                         (both_replies Sample.jira Inputs.ok
                            (Build_Response 401 None VUndefined) [])))
     = [[VStr "401: Unable to connect to JIRA during issueLink."]].
Proof.
  split; [discriminate|]. split; [discriminate|].
  apply (proj2 (proj2 (@issueLink_request_and_errors Sample.runtime Sample.jira
                         Inputs.ok None [] (VObj [("linkType", VStr "Duplicate")]))));
    discriminate.
Defined.

Lemma searchJira_outcome_witness :
  500 <> 400 /\ 500 <> 200
  /\ callbacks (trace (@searchJira Sample.runtime "project = PXA" VNull user_callback
                         (both_replies Sample.jira Inputs.ok
                            (Build_Response 500 None VUndefined) [])))
     = [[VStr "500: Unable to connect to JIRA during search."]].
Proof.
  split; [discriminate|]. split; [discriminate|].
  apply (proj2 (proj2 (@searchJira_outcome Sample.runtime Sample.jira Inputs.ok None []
                         "project = PXA" VNull VUndefined)));
    discriminate.
Defined.

Lemma addNewIssue_outcome_witness :
  403 <> 400 /\ 403 <> 200 /\ 403 <> 201
  /\ callbacks (trace (@addNewIssue Sample.runtime (VObj [("fields", VObj [])])
                         user_callback
                         (both_replies Sample.jira Inputs.ok
                            (Build_Response 403 None VUndefined) [])))
     = [[VStr "403: Unable to connect to JIRA during search."]].
Proof.
  split; [discriminate|]. split; [discriminate|]. split; [discriminate|].
  apply (proj2 (proj2 (proj2 (@addNewIssue_outcome Sample.runtime Sample.jira Inputs.ok
                                None [] (VObj [("fields", VObj [])]) VUndefined))));
    discriminate.
Defined.

Lemma updateIssue_transitionIssue_outcome_witness :
  (204 <> 200
   /\ callbacks (trace (@updateIssue Sample.runtime "JRA-9" (VObj []) user_callback
                          (both_replies Sample.jira Inputs.ok
                             (Build_Response 204 None VUndefined) [])))
      = [[VStr "204: Error while updating"]])
  /\ (200 <> 204
      /\ callbacks (trace (@transitionIssue Sample.runtime "JRA-9" (VObj []) user_callback
                             (both_replies Sample.jira Inputs.ok
                                (Build_Response 200 None VUndefined) [])))
         = [[VStr "200: Error while updating"]]).
Proof.
  split.
  - split; [discriminate|].
    apply (proj1 (proj2 (proj2 (@updateIssue_transitionIssue_outcome Sample.runtime
                                  Sample.jira Inputs.ok None [] "JRA-9" (VObj [])
                                  VUndefined))));
      discriminate.
  - split; [discriminate|].
    apply (proj2 (proj2 (proj2 (@updateIssue_transitionIssue_outcome Sample.runtime
                                  Sample.jira Inputs.ok None [] "JRA-9" (VObj [])
                                  VUndefined))));
      discriminate.
Defined.

Lemma listTransitions_outcome_witness :
  500 <> 200 /\ 500 <> 404
  /\ callbacks (trace (@listTransitions Sample.runtime "JRA-9" user_callback
                         (both_replies Sample.jira Inputs.ok
                            (Build_Response 500 None VUndefined) [])))
     = [[VStr "500: Error while updating"]].
Proof.
  split; [discriminate|]. split; [discriminate|].
  apply (proj2 (proj2 (@listTransitions_outcome Sample.runtime Sample.jira Inputs.ok
                         None [] "JRA-9")));
    discriminate.
Defined.

Lemma listProjects_outcome_witness :
  404 <> 200 /\ 404 <> 500
  /\ callbacks (trace (@listProjects Sample.runtime user_callback
                         (both_replies Sample.jira Inputs.ok
                            (Build_Response 404 None VUndefined) [])))
     = [[VStr "404: Error while updating"]].
Proof.
  split; [discriminate|]. split; [discriminate|].
  apply (proj2 (@listProjects_outcome Sample.runtime Sample.jira Inputs.ok None []
                  VUndefined));
    discriminate.
Defined.

Lemma addWorklog_outcome_witness :
  500 <> 201 /\ 500 <> 400 /\ 500 <> 403
  /\ callbacks (trace (@addWorklog Sample.runtime "JRA-9" (VObj [("timeSpent", VStr "3h")])
                         user_callback
                         (both_replies Sample.jira Inputs.ok
                            (Build_Response 500 None VUndefined) [])))
     = [[VStr "500: Error while updating"]].
Proof.
  split; [discriminate|]. split; [discriminate|]. split; [discriminate|].
  apply (proj2 (proj2 (proj2 (@addWorklog_outcome Sample.runtime Sample.jira Inputs.ok
                                None [] "JRA-9" (VObj [("timeSpent", VStr "3h")])
                                VUndefined))));
    discriminate.
Defined.

Lemma listIssueTypes_outcome_witness :
  404 <> 200
  /\ callbacks (trace (@listIssueTypes Sample.runtime user_callback
                         (both_replies Sample.jira Inputs.ok
                            (Build_Response 404 None VUndefined) [])))
     = [[VStr "404: Error while retreiving issue types"]].
Proof.
  split; [discriminate|].
  apply (proj2 (@listIssueTypes_outcome Sample.runtime Sample.jira Inputs.ok None []
                  VUndefined));
    discriminate.
Defined.
